(** * tinder-wrapper: a shallow embedding of [src/tinder-wrapper.js]

    The wrapper is a single class whose methods are promise chains over a
    mutable credential field, two request dispatchers (retry around a circuit
    breaker around the HTTP transport) and a response interpreter.  The
    embedding keeps that shape:

    - [Js]: JavaScript values with the language's truthiness, strict
      equality and property reads; errors; template literals kept as their
      parts;
    - [DateIso]: the built-in [Date.prototype.toISOString];
    - [Lodash], [Resilience]: the three library functions that the class
      calls ([_.defaultsDeep], the breaker's [exec], [retry]);
    - a promise chain is a computation in a state-and-exception monad over
      the [World]: the instance, the wall clock, the log of transport
      invocations and the count of breaker executions; the remote service
      and the state of the circuit are the environment ([Env]), given as
      oracles;
    - [Wrapper]: [handleResponse], the constructor, the dispatchers and the
      eight methods;
    - [Scenarios]: concrete environments and runs;
    - [Requests]: the verb and the [options] literal of each method, and the
      accessors;
    - [Breaker]: the circuit of each verb as a state machine over the clock.

    The properties follow the definitions. *)

From Stdlib Require Import ZArith List String Ascii Bool Lia.
Import ListNotations.

#[local] Set Warnings "-register-all".

Local Open Scope string_scope.
Local Open Scope Z_scope.

(** ** JavaScript values *)

Module Js.

(** Numbers are kept to the integers and NaN: the wrapper only tests numbers
    for truthiness, compares them with [===] and interpolates them. *)
Inductive JsValue : Type :=
| VUndefined
| VNull
| VBool (b : bool)
| VNumber (n : Z)
| VNaN
| VString (s : string)                       (* primitive string *)
| VArray (items : list JsValue)
| VObject (fields : list (string * JsValue)) (* plain object, keys in insertion order *)
| VStringObject (s : string)                 (* [new String(s)] *)
| VDate (tv : option Z).                     (* Date; time value in ms, [None] is NaN *)

(** A template literal before its parts are joined: the literal chunks and
    the interpolated values. *)
Inductive Part : Type :=
| Lit (s : string)
| Val (v : JsValue).

Definition Template : Type := list Part.

(** Modelled from the spec: the classes [TinderNotAuthorizedError] and
    [TinderOutOfLikesError] come from [./errors], which is not part of
    [src/]; the spec's taxonomy has them as the "unauthorized" and the "out
    of likes" kinds.  [Error], [TypeError] and [RangeError] are the
    language's own, carrying their message.  The last four are what the
    breaker, the transport and the retry wrapper reject with. *)
Inductive JsError : Type :=
| TinderNotAuthorizedError
| TinderOutOfLikesError
| Error (message : Template)
| TypeError (message : Template)
| RangeError (message : Template)
| CircuitBrokenError
| TimeOutError
| TransportError (code : string)
| RetryTimedOut (failure : JsError).

Inductive Result (A : Type) : Type :=
| Ok (a : A)
| Throw (e : JsError)
| OutOfFuel.

Arguments Ok {A} a.
Arguments Throw {A} e.
Arguments OutOfFuel {A}.

(** ToBoolean. *)
Definition truthy (v : JsValue) : bool :=
  match v with
  | VUndefined | VNull | VNaN => false
  | VBool b => b
  | VNumber n => negb (Z.eqb n 0)
  | VString s => negb (String.eqb s "")
  | VArray _ | VObject _ | VStringObject _ | VDate _ => true
  end.

(** [a === b] where [b] is a primitive (the wrapper only compares against
    the literals [200], [401] and ['']). *)
Definition strictEqPrim (a b : JsValue) : bool :=
  match a, b with
  | VUndefined, VUndefined => true
  | VNull, VNull => true
  | VBool x, VBool y => Bool.eqb x y
  | VNumber x, VNumber y => Z.eqb x y
  | VString x, VString y => String.eqb x y
  | _, _ => false
  end.

Definition isUndefined (v : JsValue) : bool :=
  match v with VUndefined => true | _ => false end.

Definition isObject (v : JsValue) : bool :=
  match v with VObject _ => true | _ => false end.

Definition isPrimitive (v : JsValue) : bool :=
  match v with
  | VUndefined | VNull | VBool _ | VNumber _ | VNaN | VString _ => true
  | VArray _ | VObject _ | VStringObject _ | VDate _ => false
  end.

(** [x instanceof Date], [x instanceof String]. *)
Definition instanceofDate (v : JsValue) : bool :=
  match v with VDate _ => true | _ => false end.

Definition instanceofString (v : JsValue) : bool :=
  match v with VStringObject _ => true | _ => false end.

Fixpoint lookupField (k : string) (fs : list (string * JsValue)) : JsValue :=
  match fs with
  | [] => VUndefined
  | (k', v) :: rest => if String.eqb k k' then v else lookupField k rest
  end.

(** [o[k] = v] on the fields of a plain object: the first binding of [k] is
    replaced where it stands, a new key goes last. *)
Fixpoint setField (k : string) (v : JsValue) (fs : list (string * JsValue))
  : list (string * JsValue) :=
  match fs with
  | [] => [(k, v)]
  | (k', v') :: rest =>
      if String.eqb k k' then (k, v) :: rest else (k', v') :: setField k v rest
  end.

(** Reading a property that is not there gives [undefined]; this is also the
    reading used by code that guards with [options || {}]. *)
Definition field (k : string) (v : JsValue) : JsValue :=
  match v with
  | VObject fs => lookupField k fs
  | VArray items =>
      if String.eqb k "length" then VNumber (Z.of_nat (List.length items)) else VUndefined
  | VString s | VStringObject s =>
      if String.eqb k "length" then VNumber (Z.of_nat (String.length s)) else VUndefined
  | _ => VUndefined
  end.

(** [v.k]: a TypeError on [undefined] and [null].  Index keys of arrays and
    strings are not modelled; the wrapper reads [token], [status], [error]
    and [likes_remaining]. *)
Definition getProp (v : JsValue) (k : string) : Result JsValue :=
  match v with
  | VUndefined => Throw (TypeError [Lit "Cannot read property '"; Lit k; Lit "' of undefined"])
  | VNull => Throw (TypeError [Lit "Cannot read property '"; Lit k; Lit "' of null"])
  | _ => Ok (field k v)
  end.

Fixpoint getPath (v : JsValue) (path : list string) : JsValue :=
  match path with
  | [] => v
  | k :: rest => getPath (field k v) rest
  end.

End Js.

Export Js.

(** ** Date.prototype.toISOString

    The built-in, after ECMA-262: the time value is split into day number and
    time within the day, the day number into a proleptic Gregorian date, and
    the fields are printed as [YYYY-MM-DDTHH:mm:ss.sssZ], with an expanded
    signed six-digit year outside 0..9999.  An invalid date (time value NaN)
    raises a RangeError. *)

Module DateIso.

Definition msPerDay : Z := 86400000.

Definition digitChar (d : Z) : ascii := ascii_of_nat (48 + Z.to_nat d).

(** The [width] low-order decimal digits of a non-negative number. *)
Fixpoint padded (width : nat) (n : Z) : string :=
  match width with
  | O => ""
  | S w => padded w (n / 10) ++ String (digitChar (n mod 10)) ""
  end.

(** Day number since the epoch to (year, month, day). *)
Definition civilFromDays (days : Z) : Z * Z * Z :=
  let z := days + 719468 in
  let era := z / 146097 in
  let doe := z - era * 146097 in
  let yoe := (doe - doe / 1460 + doe / 36524 - doe / 146096) / 365 in
  let doy := doe - (365 * yoe + yoe / 4 - yoe / 100) in
  let mp := (5 * doy + 2) / 153 in
  let d := doy - (153 * mp + 2) / 5 + 1 in
  let m := if mp <? 10 then mp + 3 else mp - 9 in
  let y := yoe + era * 400 + (if m <=? 2 then 1 else 0) in
  (y, m, d).

Definition yearString (y : Z) : string :=
  if (0 <=? y) && (y <=? 9999) then padded 4 y
  else (if y <? 0 then "-" else "+") ++ padded 6 (Z.abs y).

Definition isoOfTimeValue (t : Z) : string :=
  let '(y, m, d) := civilFromDays (t / msPerDay) in
  let r := t mod msPerDay in
  yearString y ++ "-" ++ padded 2 m ++ "-" ++ padded 2 d ++ "T"
    ++ padded 2 (r / 3600000) ++ ":" ++ padded 2 ((r / 60000) mod 60) ++ ":"
    ++ padded 2 ((r / 1000) mod 60) ++ "." ++ padded 3 (r mod 1000) ++ "Z".

(** [d.toISOString()] for a value that is an instance of Date. *)
Definition toISOString (tv : option Z) : Result string :=
  match tv with
  | Some t => Ok (isoOfTimeValue t)
  | None => Throw (RangeError [Lit "Invalid time value"])
  end.

End DateIso.

(** ** lodash: [_.defaultsDeep] *)

Module Lodash.

(** Modelled from the spec: one step of [_.defaultsDeep] (lodash is not
    part of [src/]).  A destination field counts as unspecified when it
    reads [undefined] and then takes the default; where both sides are plain
    objects the merge goes into the group; any other value that the caller
    has given stays. *)
Definition assignDefault (deep : JsValue -> JsValue -> JsValue) (ov sv : JsValue)
  : JsValue :=
  if isUndefined ov then sv
  else if isObject ov && isObject sv then deep ov sv
  else ov.

(** Modelled from the spec: the pass of [_.defaultsDeep] over the keys of
    the defaults, in their order. *)
Definition mergeFields (deep : JsValue -> JsValue -> JsValue)
  : list (string * JsValue) -> list (string * JsValue) -> list (string * JsValue) :=
  fix merge (sfs acc : list (string * JsValue)) {struct sfs} :=
    match sfs with
    | [] => acc
    | (k, sv) :: rest =>
        merge rest (setField k (assignDefault deep (lookupField k acc) sv) acc)
    end.

(** Modelled from the spec: [_.defaultsDeep] belongs to the lodash package,
    which is not part of [src/].  The spec has the caller's configuration
    "merged with defaults": "unspecified fields take documented defaults",
    what the caller specifies overrides them, and the merge reaches into the
    nested groups.  A group that the caller gives as an array, a Date or a
    String object is outside this model. *)
Fixpoint defaultsDeep (object source : JsValue) {struct source} : JsValue :=
  match object, source with
  | VObject ofs, VObject sfs =>
      VObject (mergeFields (fun ov sv => defaultsDeep ov sv) sfs ofs)
  | _, _ => object
  end.

(** The values of the bindings of [k], in order. *)
Definition bindings (k : string) (fs : list (string * JsValue)) : list JsValue :=
  map snd (filter (fun kv => String.eqb k (fst kv)) fs).

(** [path] runs through plain objects only. *)
Fixpoint plainAlong (path : list string) (v : JsValue) : bool :=
  match path with
  | [] => true
  | k :: rest =>
      match v with
      | VObject fs => plainAlong rest (lookupField k fs)
      | _ => false
      end
  end.

(** The caller has left the field at [path] unspecified: it, or a group on
    the way to it, reads [undefined], and every group above is a plain
    object. *)
Fixpoint unspecifiedAt (path : list string) (v : JsValue) : bool :=
  match path with
  | [] => isUndefined v
  | k :: rest =>
      match v with
      | VUndefined => true
      | VObject fs => unspecifiedAt rest (lookupField k fs)
      | _ => false
      end
  end.

End Lodash.

(** ** The HTTP transport, the world and the promise monad *)

Inductive Verb : Type := GET | POST.

(** The per-call [options] literal handed to the transport. *)
Module Options.
Record t : Type := mk {
  url : Template;
  headers : list (string * JsValue);
  body : JsValue;            (* [undefined] when the literal has no body *)
  json : bool
}.
End Options.

Record Response : Type := mkResponse {
  statusCode : Z;
  statusMessage : string;
  body : JsValue
}.

(** What one transport invocation comes to: after [latency] milliseconds the
    promise resolves with a response or rejects with a network error. *)
Inductive Reply : Type :=
| Responded (response : Response)
| Failed (code : string).

Record Outcome : Type := mkOutcome {
  latency : Z;
  reply : Reply
}.

(** The environment of a run.  [network k verb options] is the outcome of the
    transport invocation number [k] (counted from 0 over both verbs).
    [circuitOpen k verb] tells whether breaker execution number [k] finds the
    circuit open. *)
Record Env : Type := mkEnv {
  network : nat -> Verb -> Options.t -> Outcome;
  circuitOpen : nat -> Verb -> bool
}.

(** The fields of the class instance that the methods read and write. *)
Record TinderWrapper : Type := mkTinderWrapper {
  _options : JsValue;
  _authToken : JsValue
}.

Record World : Type := mkWorld {
  self : TinderWrapper;
  clock : Z;                          (* wall clock, ms *)
  sent : list (Verb * Options.t);     (* transport invocations, oldest first *)
  execs : nat                         (* breaker executions so far *)
}.

Definition Promise (A : Type) : Type := World -> Result A * World.

Definition ret {A : Type} (a : A) : Promise A := fun w => (Ok a, w).

Definition throw {A : Type} (e : JsError) : Promise A := fun w => (Throw e, w).

Definition lift {A : Type} (r : Result A) : Promise A := fun w => (r, w).

(** [p.then(k)]: a rejection skips the continuation. *)
Definition bind {A B : Type} (p : Promise A) (k : A -> Promise B) : Promise B :=
  fun w =>
    match p w with
    | (Ok a, w') => k a w'
    | (Throw e, w') => (Throw e, w')
    | (OutOfFuel, w') => (OutOfFuel, w')
    end.

Declare Scope promise_scope.
Delimit Scope promise_scope with promise.
Notation "x <- p ;; k" := (bind p (fun x => k))
  (at level 100, p at next level, right associativity) : promise_scope.
Notation "p ;; k" := (bind p (fun _ => k))
  (at level 100, right associativity) : promise_scope.
Local Open Scope promise_scope.

(** [if (cond) { throw e }] as a statement. *)
Definition throwIf (cond : bool) (e : JsError) : Promise unit :=
  if cond then throw e else ret tt.

Definition getAuthToken : Promise JsValue :=
  fun w => (Ok (_authToken (self w)), w).

Definition setAuthToken (authToken : JsValue) : Promise unit :=
  fun w =>
    (Ok tt,
     mkWorld (mkTinderWrapper (_options (self w)) authToken) (clock w) (sent w) (execs w)).

Definition advance (ms : Z) (w : World) : World :=
  mkWorld (self w) (clock w + Z.max 0 ms) (sent w) (execs w).

Definition logSent (verb : Verb) (params : Options.t) (w : World) : World :=
  mkWorld (self w) (clock w) (sent w ++ [(verb, params)])%list (execs w).

Definition countExec (w : World) : World :=
  mkWorld (self w) (clock w) (sent w) (S (execs w)).

(** ** The resilience layer: circuit breaker and retry *)

Module Resilience.

(** Modelled from the spec: the per-call bound that the breaker (the brakes
    package, not part of [src/]) takes from its options; "each individual
    call is bounded by a [timeout]".  A bound that is not a number is not
    applied. *)
Definition breakerTimeout (breakerOptions : JsValue) : option Z :=
  match field "timeout" breakerOptions with
  | VNumber n => Some n
  | _ => None
  end.

(** Modelled from the spec: [exec] of a circuit of the breaker (the brakes
    package, not part of [src/]).  From the spec: while the circuit is open
    "all calls fail immediately without attempting the network"; otherwise
    the call passes through to the transport, and a call that exceeds the
    per-call bound fails at the bound.  Whether the circuit is open at a
    given execution is left to the environment: the breaker's failure
    statistics and its open-circuit timer are not modelled. *)
Definition exec (env : Env) (verb : Verb) (params : Options.t) : Promise Response :=
  fun w =>
    let w0 := countExec w in
    if circuitOpen env (execs w) verb then (Throw CircuitBrokenError, w0)
    else
      let o := network env (List.length (sent w0)) verb params in
      let w1 := logSent verb params w0 in
      let settled :=
        match reply o with
        | Responded response => (Ok response, advance (latency o) w1)
        | Failed code => (Throw (TransportError code), advance (latency o) w1)
        end in
      match breakerTimeout (field "breaker" (_options (self w))) with
      | Some bound =>
          if Z.max 0 bound <? Z.max 0 (latency o)
          then (Throw TimeOutError, advance bound w1)
          else settled
      | None => settled
      end.

(** Modelled from the spec: the retry policy of [retry] (the bluebird-retry
    package, not part of [src/]): "max attempts, interval, timeout, whether
    to surface the original error after exhaustion". *)
Record RetryPolicy : Type := mkRetryPolicy {
  max_tries : option Z;
  interval : Z;
  timeout : option Z;
  throw_original : bool
}.

(** Modelled from the spec: how [retry] reads its options object.  A bound
    that is not given as a number, and a ceiling of 0, are not applied; an
    interval that is not a number is one second. *)
Definition readRetryPolicy (options : JsValue) : RetryPolicy :=
  {| max_tries := match field "max_tries" options with
                  | VNumber n => Some n
                  | _ => None
                  end;
     interval := match field "interval" options with
                 | VNumber n => n
                 | _ => 1000
                 end;
     timeout := match field "timeout" options with
                | VNumber n => if n =? 0 then None else Some n
                | _ => None
                end;
     throw_original := truthy (field "throw_original" options) |}.

(** Modelled from the spec: when [retry] gives up after a failure: "up to
    [max_tries] total attempts, with an overall wall-clock [timeout]
    ceiling".  [tries] counts the attempts made; the ceiling is reached when
    the wait before the next attempt would end at or after the give-up
    time. *)
Definition exhausted (policy : RetryPolicy) (giveup : option Z) (tries now : Z) : bool :=
  match max_tries policy with
  | Some n => tries =? n
  | None => false
  end
  ||
  match giveup with
  | Some g => g <=? now + interval policy
  | None => false
  end.

(** Modelled from the spec: the loop of [retry].  "On a failure it waits
    [interval] milliseconds then retries"; "if [throw_original] is set, the
    final surfaced error is the last underlying failure rather than a generic
    retry-exhaustion error". *)
Fixpoint retryLoop (fuel : nat) (func : Promise Response) (policy : RetryPolicy)
    (giveup : option Z) (tries : Z) : Promise Response :=
  fun w =>
    match fuel with
    | O => (OutOfFuel, w)
    | S fuel' =>
        match func w with
        | (Throw e, w1) =>
            if exhausted policy giveup (tries + 1) (clock w1)
            then (Throw (if throw_original policy then e else RetryTimedOut e), w1)
            else retryLoop fuel' func policy giveup (tries + 1)
                   (advance (interval policy) w1)
        | settled => settled
        end
    end.

(** Modelled from the spec: [retry(func, options)] of the bluebird-retry
    package, which is not part of [src/].  The give-up time is fixed when
    the call starts. *)
Definition retry (fuel : nat) (func : Promise Response) (options : JsValue)
  : Promise Response :=
  fun w =>
    let policy := readRetryPolicy options in
    retryLoop fuel func policy (option_map (fun t => clock w + t) (timeout policy)) 0 w.

End Resilience.

(** ** The wrapper *)

Module Wrapper.

Import Resilience.

Definition BASE_URL : string := "https://api.gotinder.com".

Definition invalidArguments : JsError := Error [Lit "invalid arguments"].

(** [`${statusCode} ${statusMessage}`] *)
Definition statusLine (statusCode : Z) (statusMessage : string) : Template :=
  [Val (VNumber statusCode); Lit " "; Val (VString statusMessage)].

Definition handleResponse (response : Response) : Result JsValue :=
  let statusCode := statusCode response in
  let statusMessage := statusMessage response in
  let body := body response in
  if 300 <=? statusCode then
    if statusCode =? 401 then Throw TinderNotAuthorizedError
    else Throw (Error (statusLine statusCode statusMessage))
  else if truthy body
          && truthy (field "status" body)
          && negb (strictEqPrim (field "status" body) (VNumber 200))
  then Throw (Error [Val (field "status" body); Lit " "; Val (field "error" body)])
  else Ok body.

Definition defaultOptions : JsValue :=
  VObject
    [("request",
      VObject
        [("headers",
          VObject
            [("User-Agent", VString "Tinder Android Version 4.5.5");
             ("os_version", VString "23");
             ("platform", VString "android");
             ("app-version", VString "854");
             ("Accept-Language", VString "en")])]);
     ("retry",
      VObject
        [("max_tries", VNumber 2);
         ("interval", VNumber 1000);
         ("timeout", VNumber 16000);
         ("throw_original", VBool true)]);
     ("breaker",
      VObject
        [("timeout", VNumber 12000);
         ("threshold", VNumber 80);
         ("circuitDuration", VNumber (3 * 60 * 60 * 1000))])].

(** [constructor (options = {})]: the fields of the new instance.  The base
    request configuration ([request.defaults]) stays with the transport and
    the breaker reads its options from [_options] when it executes; the
    dispatchers that the constructor builds are [_getRequest] and
    [_postRequest] below.  An argument that is neither [undefined] nor a
    plain object is outside the model. *)
Definition constructor (options : JsValue) : TinderWrapper :=
  let options := if isUndefined options then VObject [] else options in
  {| _options := Lodash.defaultsDeep options defaultOptions;
     _authToken := VUndefined |}.

(** The [.then] callback of both dispatchers. *)
Definition rejectServerError (response : Response) : Promise Response :=
  if 500 <=? statusCode response
  then throw (Error (statusLine (statusCode response) (statusMessage response)))
  else ret response.

(** The function handed to [retry]: one pass through the breaker. *)
Definition attempt (env : Env) (verb : Verb) (params : Options.t) : Promise Response :=
  response <- exec env verb params ;;
  rejectServerError response.

(** [this._options.retry] *)
Definition retryOptions : Promise JsValue :=
  fun w => (Ok (field "retry" (_options (self w))), w).

Definition _getRequest (env : Env) (fuel : nat) (params : Options.t) : Promise Response :=
  options <- retryOptions ;;
  retry fuel (attempt env GET params) options.

Definition _postRequest (env : Env) (fuel : nat) (params : Options.t) : Promise Response :=
  options <- retryOptions ;;
  retry fuel (attempt env POST params) options.

Definition dispatch (env : Env) (fuel : nat) (verb : Verb) (params : Options.t)
  : Promise Response :=
  match verb with
  | GET => _getRequest env fuel params
  | POST => _postRequest env fuel params
  end.

(** The [options] literal of each method. *)
Definition authHeaders (authToken : JsValue) : list (string * JsValue) :=
  [("X-Auth-Token", authToken)].

Definition authorizeOptions (facebookAccessToken facebookUserId : JsValue) : Options.t :=
  Options.mk [Lit BASE_URL; Lit "/auth"] []
    (VObject [("facebook_token", facebookAccessToken);
              ("facebook_id", facebookUserId);
              ("locale", VString "en")])
    true.

Definition recommendationsOptions (authToken : JsValue) : Options.t :=
  Options.mk [Lit BASE_URL; Lit "/user/recs"] (authHeaders authToken) VUndefined true.

Definition accountOptions (authToken : JsValue) : Options.t :=
  Options.mk [Lit BASE_URL; Lit "/meta"] (authHeaders authToken) VUndefined true.

Definition userOptions (authToken userId : JsValue) : Options.t :=
  Options.mk [Lit BASE_URL; Lit "/user/"; Val userId] (authHeaders authToken)
    VUndefined true.

Definition updatesOptions (authToken _lastActivityDate : JsValue) : Options.t :=
  Options.mk [Lit BASE_URL; Lit "/updates"] (authHeaders authToken)
    (VObject [("last_activity_date", _lastActivityDate)]) true.

Definition messageOptions (authToken matchId message : JsValue) : Options.t :=
  Options.mk [Lit BASE_URL; Lit "/user/matches/"; Val matchId] (authHeaders authToken)
    (VObject [("message", message)]) true.

Definition likeOptions (authToken userId photoId contentHash sNumber : JsValue)
  : Options.t :=
  Options.mk
    [Lit BASE_URL; Lit "/like/"; Val userId; Lit "?photoId="; Val photoId;
     Lit "&content_hash="; Val contentHash; Lit "&s_number="; Val sNumber]
    (authHeaders authToken) VUndefined true.

Definition passOptions (authToken userId : JsValue) : Options.t :=
  Options.mk [Lit BASE_URL; Lit "/pass/"; Val userId] (authHeaders authToken)
    VUndefined true.

Definition authorize (env : Env) (fuel : nat) (facebookAccessToken facebookUserId : JsValue)
  : Promise JsValue :=
  throwIf (negb (truthy facebookAccessToken) || negb (truthy facebookUserId))
          invalidArguments ;;
  response <- _postRequest env fuel (authorizeOptions facebookAccessToken facebookUserId) ;;
  data <- lift (handleResponse response) ;;
  token <- lift (getProp data "token") ;;
  setAuthToken token ;;
  ret data.

Definition getRecommendations (env : Env) (fuel : nat) : Promise JsValue :=
  authToken <- getAuthToken ;;
  throwIf (negb (truthy authToken)) TinderNotAuthorizedError ;;
  authToken <- getAuthToken ;;
  response <- _getRequest env fuel (recommendationsOptions authToken) ;;
  lift (handleResponse response).

Definition getAccount (env : Env) (fuel : nat) : Promise JsValue :=
  authToken <- getAuthToken ;;
  throwIf (negb (truthy authToken)) TinderNotAuthorizedError ;;
  authToken <- getAuthToken ;;
  response <- _getRequest env fuel (accountOptions authToken) ;;
  lift (handleResponse response).

Definition getUser (env : Env) (fuel : nat) (userId : JsValue) : Promise JsValue :=
  throwIf (negb (truthy userId)) invalidArguments ;;
  authToken <- getAuthToken ;;
  throwIf (negb (truthy authToken)) TinderNotAuthorizedError ;;
  authToken <- getAuthToken ;;
  response <- _getRequest env fuel (userOptions authToken userId) ;;
  lift (handleResponse response).

(** [lastActivityDate = ''] in the parameter list: the default applies when
    the argument is [undefined]. *)
Definition defaultLastActivityDate (lastActivityDate : JsValue) : JsValue :=
  if isUndefined lastActivityDate then VString "" else lastActivityDate.

Definition getUpdates (env : Env) (fuel : nat) (lastActivityDate : JsValue)
  : Promise JsValue :=
  let lastActivityDate := defaultLastActivityDate lastActivityDate in
  throwIf (negb (instanceofDate lastActivityDate)
           && negb (instanceofString lastActivityDate
                    || strictEqPrim lastActivityDate (VString "")))
          invalidArguments ;;
  authToken <- getAuthToken ;;
  throwIf (negb (truthy authToken)) TinderNotAuthorizedError ;;
  _lastActivityDate <-
    match lastActivityDate with
    | VDate tv => iso <- lift (DateIso.toISOString tv) ;; ret (VString iso)
    | _ => ret lastActivityDate
    end ;;
  authToken <- getAuthToken ;;
  response <- _postRequest env fuel (updatesOptions authToken _lastActivityDate) ;;
  lift (handleResponse response).

Definition sendMessage (env : Env) (fuel : nat) (matchId message : JsValue)
  : Promise JsValue :=
  throwIf (negb (truthy matchId) || negb (truthy message)) invalidArguments ;;
  authToken <- getAuthToken ;;
  throwIf (negb (truthy authToken)) TinderNotAuthorizedError ;;
  authToken <- getAuthToken ;;
  response <- _postRequest env fuel (messageOptions authToken matchId message) ;;
  lift (handleResponse response).

(** The last [.then] callback of [like]. *)
Definition checkLikesRemaining (data : JsValue) : Result JsValue :=
  if truthy data && negb (truthy (field "likes_remaining" data))
  then Throw TinderOutOfLikesError
  else Ok data.

Definition like (env : Env) (fuel : nat) (userId photoId contentHash sNumber : JsValue)
  : Promise JsValue :=
  throwIf (negb (truthy userId)) invalidArguments ;;
  authToken <- getAuthToken ;;
  throwIf (negb (truthy authToken)) TinderNotAuthorizedError ;;
  authToken <- getAuthToken ;;
  response <-
    _getRequest env fuel (likeOptions authToken userId photoId contentHash sNumber) ;;
  data <- lift (handleResponse response) ;;
  lift (checkLikesRemaining data).

Definition pass (env : Env) (fuel : nat) (userId : JsValue) : Promise JsValue :=
  throwIf (negb (truthy userId)) invalidArguments ;;
  authToken <- getAuthToken ;;
  throwIf (negb (truthy authToken)) TinderNotAuthorizedError ;;
  authToken <- getAuthToken ;;
  response <- _getRequest env fuel (passOptions authToken userId) ;;
  lift (handleResponse response).

(** The seven operations that need a session credential, each with its
    arguments, and the argument check that each runs before the credential
    check. *)
Inductive AuthenticatedCall : Type :=
| GetRecommendations
| GetAccount
| GetUser (userId : JsValue)
| GetUpdates (lastActivityDate : JsValue)
| SendMessage (matchId message : JsValue)
| Like (userId photoId contentHash sNumber : JsValue)
| Pass (userId : JsValue).

Definition invoke (env : Env) (fuel : nat) (call : AuthenticatedCall) : Promise JsValue :=
  match call with
  | GetRecommendations => getRecommendations env fuel
  | GetAccount => getAccount env fuel
  | GetUser userId => getUser env fuel userId
  | GetUpdates lastActivityDate => getUpdates env fuel lastActivityDate
  | SendMessage matchId message => sendMessage env fuel matchId message
  | Like userId photoId contentHash sNumber =>
      like env fuel userId photoId contentHash sNumber
  | Pass userId => pass env fuel userId
  end.

Definition argumentsValid (call : AuthenticatedCall) : bool :=
  match call with
  | GetRecommendations | GetAccount => true
  | GetUser userId | Pass userId | Like userId _ _ _ => truthy userId
  | SendMessage matchId message => truthy matchId && truthy message
  | GetUpdates lastActivityDate =>
      let d := defaultLastActivityDate lastActivityDate in
      instanceofDate d || instanceofString d || strictEqPrim d (VString "")
  end.

(** The transport invocations made between two worlds of a run, and the
    [last_activity_date] that one of them carries in its body. *)
Definition outgoing (before after : World) : list (Verb * Options.t) :=
  skipn (List.length (sent before)) (sent after).

Definition lastActivityDateSent (invocation : Verb * Options.t) : JsValue :=
  field "last_activity_date" (Options.body (snd invocation)).

(** [getUpdates] lets its argument through, every request that the call
    sends is a POST carrying [value] as [last_activity_date], and a request
    is sent whenever the breaker lets the first try pass. *)
Definition sendsLastActivityDate (env : Env) (fuel : nat) (w : World)
    (lastActivityDate value : JsValue) : Prop :=
  getUpdates env fuel lastActivityDate w
  = (response <- _postRequest env fuel
                   (updatesOptions (_authToken (self w)) value) ;;
     lift (handleResponse response)) w
  /\ Forall (fun invocation =>
               fst invocation = POST /\ lastActivityDateSent invocation = value)
            (outgoing w (snd (getUpdates env fuel lastActivityDate w)))
  /\ (fuel <> 0%nat -> circuitOpen env (execs w) POST = false ->
      outgoing w (snd (getUpdates env fuel lastActivityDate w)) <> []).

(** Arguments that are neither dates nor strings of either kind. *)
Definition neitherDateNorString (v : JsValue) : bool :=
  match v with
  | VNull | VBool _ | VNumber _ | VNaN | VArray _ | VObject _ => true
  | VUndefined | VString _ | VStringObject _ | VDate _ => false
  end.

(** The timing side of a dispatch: a call that answers after [ms] stays
    within the breaker's per-call bound, and a failure seen [elapsed]
    milliseconds into the dispatch leaves time for another try. *)
Definition withinCallBound (w : World) (ms : Z) : bool :=
  match breakerTimeout (field "breaker" (_options (self w))) with
  | Some bound => negb (Z.max 0 bound <? Z.max 0 ms)
  | None => true
  end.

(** Try number [i] (from 0) of a dispatch that starts in [w] passes the
    breaker, and the transport answers it with [response] after [ms]
    milliseconds, within the per-call bound. *)
Definition answers (env : Env) (verb : Verb) (params : Options.t) (w : World)
    (i : nat) (ms : Z) (response : Response) : Prop :=
  circuitOpen env (execs w + i) verb = false
  /\ network env (List.length (sent w) + i) verb params = mkOutcome ms (Responded response)
  /\ withinCallBound w ms = true.

Definition belowCeiling (policy : RetryPolicy) (elapsed : Z) : bool :=
  match timeout policy with
  | Some ceiling => negb (ceiling <=? elapsed + interval policy)
  | None => true
  end.

(** The defaults as the documentation lists them: two tries, one second
    between them, a sixteen-second ceiling, the original error passed
    through; twelve seconds per call, a threshold of 80, three hours of open
    circuit. *)
Definition documentedDefaults : list (list string * JsValue) :=
  [(["retry"; "max_tries"], VNumber 2);
   (["retry"; "interval"], VNumber 1000);
   (["retry"; "timeout"], VNumber 16000);
   (["retry"; "throw_original"], VBool true);
   (["breaker"; "timeout"], VNumber 12000);
   (["breaker"; "threshold"], VNumber 80);
   (["breaker"; "circuitDuration"], VNumber 10800000)].

End Wrapper.

(** ** Concrete runs

    Environments and worlds on which the definitions are evaluated. *)

Module Scenarios.

Import Wrapper.

Definition okResponse (body : JsValue) : Response := mkResponse 200 "OK" body.

Definition serverError : Response := mkResponse 500 "Internal Server Error" VUndefined.

(** A remote service that answers transport invocation [k] with entry [k] of
    a script (and refuses connections once the script is used up), behind a
    breaker whose circuit stays closed. *)
Definition scripted (script : list Outcome) : Env :=
  mkEnv (fun k _ _ => nth k script (mkOutcome 0 (Failed "ECONNREFUSED")))
        (fun _ _ => false).

Definition promptly (response : Response) : Outcome := mkOutcome 20 (Responded response).

Definition after (ms : Z) (response : Response) : Outcome := mkOutcome ms (Responded response).

(** A new client, before and after a credential has been stored. *)
Definition newClient (options : JsValue) : World :=
  mkWorld (constructor options) 0 [] 0.

Definition authorizedClient (options : JsValue) (authToken : string) : World :=
  mkWorld (mkTinderWrapper (_options (constructor options)) (VString authToken)) 0 [] 0.

(** Answers of the [like] endpoint. *)
Definition noLikesLeft : JsValue :=
  VObject [("match", VBool false); ("likes_remaining", VNumber 0)].

Definition fiveLikesLeft : JsValue :=
  VObject [("match", VBool false); ("likes_remaining", VNumber 5)].


(** A client holding a credential calls [like] and the service answers at
    once with the given body. *)
Definition likeEnv (answer : JsValue) : Env := scripted [promptly (okResponse answer)].

Definition likeRun (answer : JsValue) : Result JsValue * World :=
  like (likeEnv answer) 2 (VString "u1") (VString "p1") (VString "h") (VNumber 7)
       (authorizedClient (VObject []) "session").

(** A caller who asks for three tries and leaves the rest to the defaults. *)
Definition threeTries : JsValue :=
  VObject [("retry", VObject [("max_tries", VNumber 3)])].

(** Two server errors, then a success: answered at once, and answered after
    eleven seconds each. *)
Definition quickFailures : Env :=
  scripted [promptly serverError; promptly serverError;
            promptly (okResponse (VObject [("results", VArray [])]))].

(** A service that answers every call at once with a server error. *)
Definition alwaysFailing : Env :=
  mkEnv (fun _ _ _ => promptly serverError) (fun _ _ => false).

Definition slowFailures : Env :=
  scripted [after 11000 serverError; after 11000 serverError;
            promptly (okResponse (VObject [("results", VArray [])]))].

(** The first call of a new client is [authorize], answered at once with
    status 200 and the given body. *)
Definition authorizeEnv (answer : JsValue) : Env := scripted [promptly (okResponse answer)].

Definition authorizeRun (answer : JsValue) : Result JsValue * World :=
  authorize (authorizeEnv answer) 2 (VString "fb-token") (VString "fb-id")
            (newClient VUndefined).

Definition tokenIssued : JsValue :=
  VObject [("token", VString "abc"); ("user", VObject [("_id", VString "u0")])].

Definition tokenWithApplicationError : JsValue :=
  VObject [("token", VString "abc"); ("status", VNumber 500); ("error", VString "boom")].

(** A client holding a credential polls for updates; the service answers at
    once. *)
Definition updatesEnv : Env :=
  scripted [promptly (okResponse (VObject [("matches", VArray [])]))].

Definition updatesRun (lastActivityDate : JsValue) : Result JsValue * World :=
  getUpdates updatesEnv 2 lastActivityDate (authorizedClient VUndefined "session").

End Scenarios.

(** ** What a call asks of the transport

    The verb and the [options] literal of each authenticated method, read
    off the method bodies, and the last step of the chain. *)

Module Requests.

Import Wrapper.

Definition verbOf (call : AuthenticatedCall) : Verb :=
  match call with
  | GetUpdates _ | SendMessage _ _ => POST
  | GetRecommendations | GetAccount | GetUser _ | Like _ _ _ _ | Pass _ => GET
  end.

(** The literal that the [.then] callback of the method builds; [getUpdates]
    builds none for an invalid date, since [toISOString] throws first. *)
Definition optionsOf (authToken : JsValue) (call : AuthenticatedCall) : option Options.t :=
  match call with
  | GetRecommendations => Some (recommendationsOptions authToken)
  | GetAccount => Some (accountOptions authToken)
  | GetUser userId => Some (userOptions authToken userId)
  | GetUpdates lastActivityDate =>
      match defaultLastActivityDate lastActivityDate with
      | VDate (Some t) =>
          Some (updatesOptions authToken (VString (DateIso.isoOfTimeValue t)))
      | VDate None => None
      | other => Some (updatesOptions authToken other)
      end
  | SendMessage matchId message => Some (messageOptions authToken matchId message)
  | Like userId photoId contentHash sNumber =>
      Some (likeOptions authToken userId photoId contentHash sNumber)
  | Pass userId => Some (passOptions authToken userId)
  end.

(** What the method does with the interpreted body: [like] checks the
    remaining likes, the others hand the body on. *)
Definition finish (call : AuthenticatedCall) (data : JsValue) : Result JsValue :=
  match call with
  | Like _ _ _ _ => checkLikesRemaining data
  | _ => Ok data
  end.

(** [this.authToken = value] and [this.authToken]: the accessors of the
    class. *)
Definition set_authToken (authToken : JsValue) (w : World) : World :=
  mkWorld (mkTinderWrapper (_options (self w)) authToken) (clock w) (sent w) (execs w).

Definition get_authToken (w : World) : JsValue := _authToken (self w).

(** The errors that one pass through the breaker can end in: the circuit is
    open, the call timed out, the transport failed, or the response had a
    status of 500 or more. *)
Definition attemptError (e : JsError) : Prop :=
  e = CircuitBrokenError \/ e = TimeOutError
  \/ (exists code, e = TransportError code)
  \/ (exists statusCode statusMessage,
         500 <= statusCode /\ e = Error (statusLine statusCode statusMessage)).

(** Runs used below. *)
Definition tokenNotIssued : JsValue := VObject [("user", VObject [("_id", VString "u0")])].

Definition getAccountAfter (answer : JsValue) : Result JsValue * World :=
  invoke (Scenarios.scripted []) 2 GetAccount (snd (Scenarios.authorizeRun answer)).

Definition unauthorizedAnswer : Response := mkResponse 401 "Unauthorized" VUndefined.

Definition oneAnswer (response : Response) : Env :=
  Scenarios.scripted [Scenarios.promptly response].

Definition brokenCircuit : Env :=
  mkEnv (fun _ _ _ => Scenarios.promptly (Scenarios.okResponse (VObject [])))
        (fun _ _ => true).

Definition session : World := Scenarios.authorizedClient VUndefined "session".

Definition sessionRun (answer : Response) (call : AuthenticatedCall)
  : Result JsValue * World :=
  invoke (oneAnswer answer) 2 call session.

Definition aLike : AuthenticatedCall :=
  Like (VString "u1") (VString "p1") (VString "h") (VNumber 7).

End Requests.

(** ** The circuit breaker as a state machine

    A breaker per verb in front of the transport, with the wall clock of the
    [World]. *)

Module Breaker.

Import Resilience.

(** Modelled from the spec: the state of one circuit of the breaker (the
    brakes package, not part of [src/]): "closed/open/half-open".  A closed
    circuit keeps the outcomes of its calls, newest first, each with the
    time it settled and whether it succeeded.  A tripped circuit keeps the
    time at which it opened; it is open for [circuitDuration] milliseconds
    from then and in the trial (half-open) state afterwards. *)
Inductive Circuit : Type :=
| Flowing (history : list (Z * bool))
| Tripped (since : Z).

Inductive Phase : Type := Closed | Open | HalfOpen.

(** Modelled from the spec: the breaker policy, "failure-rate threshold,
    open-circuit duration", and the measurement window over which the rate
    is taken.  The spec names the window but no option for it, so it is a
    parameter here.  A threshold that is not a number is never crossed; a
    duration that is not a number is 0. *)
Record BreakerPolicy : Type := mkBreakerPolicy {
  threshold : option Z;
  circuitDuration : Z;
  window : Z
}.

Definition readBreakerPolicy (window : Z) (options : JsValue) : BreakerPolicy :=
  {| threshold := match field "threshold" options with
                  | VNumber n => Some n
                  | _ => None
                  end;
     circuitDuration := match field "circuitDuration" options with
                        | VNumber n => Z.max 0 n
                        | _ => 0
                        end;
     window := window |}.

(** Modelled from the spec: after the open-circuit duration "elapses the
    breaker moves to a trial (half-open) state". *)
Definition phaseAt (policy : BreakerPolicy) (c : Circuit) (now : Z) : Phase :=
  match c with
  | Flowing _ => Closed
  | Tripped since => if now <? since + circuitDuration policy then Open else HalfOpen
  end.

(** Modelled from the spec: while open, "all calls fail immediately without
    attempting the network". *)
Definition rejects (policy : BreakerPolicy) (c : Circuit) (now : Z) : bool :=
  match phaseAt policy c now with
  | Open => true
  | _ => false
  end.

(** Modelled from the spec: the "rolling failure rate over the configured
    window": the outcomes that settled within the window before [now], and
    the test that the share of failures among them, "as a percentage", has
    reached the threshold. *)
Definition inWindow (policy : BreakerPolicy) (now : Z) (history : list (Z * bool))
  : list (Z * bool) :=
  filter (fun outcome => now - window policy <? fst outcome) history.

Definition failures (history : list (Z * bool)) : nat :=
  List.length (filter (fun outcome => negb (snd outcome)) history).

Definition crossed (policy : BreakerPolicy) (history : list (Z * bool)) : bool :=
  match threshold policy, history with
  | Some percent, _ :: _ =>
      percent * Z.of_nat (List.length history) <=? 100 * Z.of_nat (failures history)
  | _, _ => false
  end.

(** Modelled from the spec: what the outcome of a call that went through
    does to the circuit.  Closed: "failures increment the rate", and "when
    failure rate crosses [threshold] ... the breaker opens".  Trial:
    "success closes the circuit, failure re-opens it". *)
Definition settle (policy : BreakerPolicy) (c : Circuit) (now : Z) (ok : bool) : Circuit :=
  match c with
  | Flowing history =>
      let history' := (now, ok) :: inWindow policy now history in
      if crossed policy history' then Tripped now else Flowing history'
  | Tripped _ => if ok then Flowing [(now, true)] else Tripped now
  end.

(** The world with the two circuits, "per-verb (GET, POST) breaker state". *)
Record Guarded : Type := mkGuarded {
  world : World;
  circuit : Verb -> Circuit
}.

Definition sameVerb (a b : Verb) : bool :=
  match a, b with
  | GET, GET | POST, POST => true
  | _, _ => false
  end.

Definition setCircuit (verb : Verb) (c : Circuit) (circuits : Verb -> Circuit)
  : Verb -> Circuit :=
  fun v => if sameVerb v verb then c else circuits v.

Definition succeeded (r : Result Response) : bool :=
  match r with
  | Ok _ => true
  | _ => false
  end.

Definition policyOf (window : Z) (g : Guarded) : BreakerPolicy :=
  readBreakerPolicy window (field "breaker" (_options (self (world g)))).

(** Modelled from the spec: one execution through the circuit of a verb.
    The gate is the circuit's own state at the time of the call; what the
    call does then is [Resilience.exec], where "each individual call is
    bounded by a [timeout]; exceeding it counts as a failure"; a call that
    went through is recorded when it settles. *)
Definition execGuarded (window : Z) (net : nat -> Verb -> Options.t -> Outcome)
    (verb : Verb) (params : Options.t) (g : Guarded) : Result Response * Guarded :=
  let policy := policyOf window g in
  let shut := rejects policy (circuit g verb) (clock (world g)) in
  let (r, w') := exec (mkEnv net (fun _ _ => shut)) verb params (world g) in
  (r,
   mkGuarded w'
     (if shut then circuit g
      else setCircuit verb (settle policy (circuit g verb) (clock w') (succeeded r))
                      (circuit g))).

(** A client's traffic through the breaker: calls and the time between them,
    and what is seen of each call. *)
Inductive Step : Type :=
| Call (verb : Verb) (params : Options.t)
| Wait (ms : Z).

Record Observation : Type := mkObservation {
  verbCalled : Verb;
  calledAt : Z;
  result : Result Response;
  attempts : list (Verb * Options.t)   (* the transport invocations of the call *)
}.

Definition waitGuarded (ms : Z) (g : Guarded) : Guarded :=
  mkGuarded (advance ms (world g)) (circuit g).

Fixpoint run (window : Z) (net : nat -> Verb -> Options.t -> Outcome)
    (steps : list Step) (g : Guarded) : list Observation * Guarded :=
  match steps with
  | [] => ([], g)
  | Wait ms :: rest => run window net rest (waitGuarded ms g)
  | Call verb params :: rest =>
      let (r, g') := execGuarded window net verb params g in
      let (observations, g'') := run window net rest g' in
      (mkObservation verb (clock (world g)) r
         (skipn (List.length (sent (world g))) (sent (world g'))) :: observations,
       g'')
  end.

(** A run: the service refuses the first connection and answers afterwards;
    the window is ten seconds. *)
Definition refusesOnce : nat -> Verb -> Options.t -> Outcome :=
  fun k _ _ =>
    match k with
    | O => mkOutcome 20 (Failed "ECONNREFUSED")
    | _ => Scenarios.promptly (Scenarios.okResponse (VObject []))
    end.

Definition freshlyGuarded : Guarded :=
  mkGuarded (Scenarios.authorizedClient VUndefined "session") (fun _ => Flowing []).

Definition recs : Options.t := Wrapper.recommendationsOptions (VString "session").

Definition outage : list Step :=
  [Call GET recs; Call GET recs; Call POST recs; Wait 5000; Call GET recs;
   Wait 10800000; Call GET recs; Call GET recs].

(** The client after the refused connection, and three hours later. *)
Definition tripped : Guarded :=
  snd (execGuarded 10000 refusesOnce GET recs freshlyGuarded).

Definition afterOutage : Guarded := waitGuarded 10800000 tripped.

End Breaker.

Import Lodash Resilience Wrapper Scenarios Requests Breaker.
Local Open Scope promise_scope.

(** * Properties *)

(** ** Values *)

Lemma strictEqPrim_number (v : JsValue) (n : Z) :
  strictEqPrim v (VNumber n) = true <-> v = VNumber n.
Proof.
  destruct v; simpl; split; intros H; try discriminate; try congruence.
  - apply Z.eqb_eq in H. now subst.
  - inversion H. apply Z.eqb_refl.
Qed.

Lemma truthy_field_truthy (k : string) (v : JsValue) :
  truthy (field k v) = true -> truthy v = true.
Proof.
  destruct v; simpl; try discriminate; try reflexivity.
  destruct (String.eqb k "length") eqn:E; simpl; intros H; try discriminate.
  destruct s; simpl in *; [discriminate | reflexivity].
Qed.

(** [toISOString] on the epoch, on a date of 2017, on the last millisecond
    before the epoch, on a leap day and on the two ends of the range of
    dates. *)
Example toISOString_epoch :
  DateIso.toISOString (Some 0) = Ok "1970-01-01T00:00:00.000Z".
Proof. reflexivity. Qed.

Example toISOString_2017 :
  DateIso.toISOString (Some 1490443200000) = Ok "2017-03-25T12:00:00.000Z".
Proof. reflexivity. Qed.

Example toISOString_before_epoch :
  DateIso.toISOString (Some (-1)) = Ok "1969-12-31T23:59:59.999Z".
Proof. reflexivity. Qed.

Example toISOString_leap_day :
  DateIso.toISOString (Some 951782400000) = Ok "2000-02-29T00:00:00.000Z".
Proof. reflexivity. Qed.

Example toISOString_range :
  DateIso.toISOString (Some 8640000000000000) = Ok "+275760-09-13T00:00:00.000Z"
  /\ DateIso.toISOString (Some (-8640000000000000)) = Ok "-271821-04-20T00:00:00.000Z".
Proof. split; reflexivity. Qed.

(** ** The response interpreter *)

(** C4.  For every response handed to [handleResponse]: status 401 fails
    with [TinderNotAuthorizedError], and every other status from 300 up fails
    with a generic [Error] whose message is made of the status code and the
    status message. *)
Theorem handleResponse_http_failure (response : Response) :
  (statusCode response = 401 ->
   handleResponse response = Throw TinderNotAuthorizedError)
  /\
  (300 <= statusCode response -> statusCode response <> 401 ->
   handleResponse response =
     Throw (Error [Val (VNumber (statusCode response)); Lit " ";
                   Val (VString (statusMessage response))])).
Proof.
  unfold handleResponse. split.
  - intros H. rewrite H. reflexivity.
  - intros Hge Hne.
    destruct (300 <=? statusCode response) eqn:E; [| apply Z.leb_gt in E; lia].
    destruct (statusCode response =? 401) eqn:E'; [apply Z.eqb_eq in E'; lia |].
    reflexivity.
Qed.

Lemma handleResponse_http_failure_witness :
  handleResponse (mkResponse 401 "Unauthorized" VUndefined)
    = Throw TinderNotAuthorizedError
  /\ handleResponse (mkResponse 404 "Not Found" (VString "no such user"))
    = Throw (Error [Val (VNumber 404); Lit " "; Val (VString "Not Found")]).
Proof.
  split.
  - apply (proj1 (handleResponse_http_failure (mkResponse 401 "Unauthorized" VUndefined))).
    reflexivity.
  - apply (proj2 (handleResponse_http_failure
                    (mkResponse 404 "Not Found" (VString "no such user")))).
    + simpl. lia.
    + simpl. lia.
Defined.

(** C5, as stated, fails: the status field of this body is present and is
    not 200, yet the body is returned, because the field is falsy. *)
Lemma handleResponse_falsy_status_counterexample :
  let body := VObject [("status", VNumber 0); ("error", VString "quota")] in
  statusCode (okResponse body) < 300
  /\ In "status" (map fst [("status", VNumber 0); ("error", VString "quota")])
  /\ field "status" body <> VNumber 200
  /\ handleResponse (okResponse body) = Ok body.
Proof.
  simpl. repeat split; try lia; try discriminate. left. reflexivity.
Qed.

(** C5, amended.  For every response with status below 300: if the body's
    [status] field is truthy and is not the number 200, interpretation fails
    with a generic [Error] whose message is made of that field and the
    body's [error] field; otherwise (the field is absent or falsy, or is
    200) interpretation returns the body unchanged. *)
Theorem handleResponse_application_status (response : Response) :
  statusCode response < 300 ->
  (truthy (field "status" (body response)) = true ->
   field "status" (body response) <> VNumber 200 ->
   handleResponse response =
     Throw (Error [Val (field "status" (body response)); Lit " ";
                   Val (field "error" (body response))]))
  /\
  (truthy (field "status" (body response)) = false
   \/ field "status" (body response) = VNumber 200 ->
   handleResponse response = Ok (body response)).
Proof.
  intros Hlt. unfold handleResponse.
  destruct (300 <=? statusCode response) eqn:E; [apply Z.leb_le in E; lia |].
  split.
  - intros Ht Hne.
    rewrite (truthy_field_truthy _ _ Ht), Ht. simpl.
    destruct (strictEqPrim (field "status" (body response)) (VNumber 200)) eqn:Eq.
    + apply strictEqPrim_number in Eq. contradiction.
    + reflexivity.
  - intros [Hf | Heq].
    + rewrite Hf, andb_false_r. reflexivity.
    + rewrite Heq. simpl. rewrite andb_false_r. reflexivity.
Qed.

Lemma handleResponse_application_status_witness :
  handleResponse
    (okResponse (VObject [("status", VNumber 403); ("error", VString "banned")]))
    = Throw (Error [Val (VNumber 403); Lit " "; Val (VString "banned")])
  /\ handleResponse (okResponse (VObject [("status", VNumber 200); ("results", VArray [])]))
    = Ok (VObject [("status", VNumber 200); ("results", VArray [])]).
Proof.
  split.
  - apply (proj1 (handleResponse_application_status
                    (okResponse (VObject [("status", VNumber 403);
                                          ("error", VString "banned")]))
                    ltac:(simpl; lia))).
    + reflexivity.
    + simpl. discriminate.
  - apply (proj2 (handleResponse_application_status
                    (okResponse (VObject [("status", VNumber 200); ("results", VArray [])]))
                    ltac:(simpl; lia))).
    right. reflexivity.
Defined.

(** ** The guards of the authenticated methods *)

Ltac run_guards :=
  unfold bind, throwIf, getAuthToken, throw, ret, lift; simpl.

(** C1, as stated, fails: without a credential and without a user id,
    [getUser] fails with the invalid-arguments error, not with
    [TinderNotAuthorizedError]. *)
Lemma getUser_without_id_counterexample :
  truthy (_authToken (self (newClient (VObject [])))) = false
  /\ fst (invoke (scripted []) 2 (GetUser VUndefined) (newClient (VObject [])))
     = Throw (Error [Lit "invalid arguments"])
  /\ fst (invoke (scripted []) 2 (GetUser VUndefined) (newClient (VObject [])))
     <> Throw TinderNotAuthorizedError.
Proof. repeat split. discriminate. Qed.

(** C1, amended.  For every authenticated operation, if the session
    credential is absent (falsy) the call fails before any transport
    invocation, leaving the world as it was: with
    [TinderNotAuthorizedError] when the arguments pass the method's own
    check (always, for [getRecommendations] and [getAccount]), and with the
    invalid-arguments error when they do not, since that check runs first. *)
Theorem unauthenticated_call_fails_before_transport
    (env : Env) (fuel : nat) (call : AuthenticatedCall) (w : World) :
  truthy (_authToken (self w)) = false ->
  invoke env fuel call w
    = (Throw (if argumentsValid call then TinderNotAuthorizedError else invalidArguments), w)
  /\ sent (snd (invoke env fuel call w)) = sent w.
Proof.
  intros Hno.
  assert (invoke env fuel call w
          = (Throw (if argumentsValid call then TinderNotAuthorizedError
                    else invalidArguments), w)) as Hrun.
  { destruct call; simpl.
    - unfold getRecommendations. run_guards. now rewrite Hno.
    - unfold getAccount. run_guards. now rewrite Hno.
    - unfold getUser. run_guards.
      destruct (truthy userId); simpl; [now rewrite Hno | reflexivity].
    - unfold getUpdates. run_guards.
      destruct (instanceofDate (defaultLastActivityDate lastActivityDate)),
               (instanceofString (defaultLastActivityDate lastActivityDate)),
               (strictEqPrim (defaultLastActivityDate lastActivityDate) (VString ""));
        simpl; try reflexivity; now rewrite Hno.
    - unfold sendMessage. run_guards.
      destruct (truthy matchId), (truthy message); simpl;
        try reflexivity; now rewrite Hno.
    - unfold like. run_guards.
      destruct (truthy userId); simpl; [now rewrite Hno | reflexivity].
    - unfold pass. run_guards.
      destruct (truthy userId); simpl; [now rewrite Hno | reflexivity]. }
  split; [exact Hrun | now rewrite Hrun].
Qed.

Lemma unauthenticated_call_fails_before_transport_witness :
  invoke (scripted [promptly (okResponse fiveLikesLeft)]) 2
         (Like (VString "u1") (VString "p1") (VString "h") (VNumber 7))
         (newClient (VObject []))
    = (Throw TinderNotAuthorizedError, newClient (VObject []))
  /\ sent (snd (invoke (scripted [promptly (okResponse fiveLikesLeft)]) 2
                       (Like (VString "u1") (VString "p1") (VString "h") (VNumber 7))
                       (newClient (VObject []))))
     = [].
Proof.
  apply (unauthenticated_call_fails_before_transport
           (scripted [promptly (okResponse fiveLikesLeft)]) 2
           (Like (VString "u1") (VString "p1") (VString "h") (VNumber 7))
           (newClient (VObject []))).
  reflexivity.
Defined.

(** ** [like] *)

Section Like.

Variables (env : Env) (fuel : nat) (userId photoId contentHash sNumber : JsValue).

Lemma like_authorized (w : World) :
  truthy userId = true ->
  truthy (_authToken (self w)) = true ->
  like env fuel userId photoId contentHash sNumber w
  = (response <- _getRequest env fuel
                   (likeOptions (_authToken (self w)) userId photoId contentHash sNumber) ;;
     data <- lift (handleResponse response) ;;
     lift (checkLikesRemaining data)) w.
Proof.
  intros Hu Ht. unfold like. run_guards. rewrite Hu. simpl. rewrite Ht. reflexivity.
Qed.

Lemma like_interpreted (w w' : World) (response : Response) (data : JsValue) :
  truthy userId = true ->
  truthy (_authToken (self w)) = true ->
  _getRequest env fuel
    (likeOptions (_authToken (self w)) userId photoId contentHash sNumber) w
    = (Ok response, w') ->
  handleResponse response = Ok data ->
  like env fuel userId photoId contentHash sNumber w = (checkLikesRemaining data, w').
Proof.
  intros Hu Ht Hreq Hdata. rewrite like_authorized by assumption.
  unfold bind at 1. rewrite Hreq. unfold bind, lift. rewrite Hdata. reflexivity.
Qed.


End Like.

(** C7.  When the interpreted response body of [like] has
    [likes_remaining] equal to 0 the call fails with
    [TinderOutOfLikesError]; when it has [likes_remaining] equal to 5 the
    call returns that body unchanged. *)
Theorem like_likes_remaining_zero_or_five (env : Env) (fuel : nat)
    (userId photoId contentHash sNumber : JsValue) (w w' : World)
    (response : Response) (data : JsValue) :
  truthy userId = true ->
  truthy (_authToken (self w)) = true ->
  _getRequest env fuel
    (likeOptions (_authToken (self w)) userId photoId contentHash sNumber) w
    = (Ok response, w') ->
  handleResponse response = Ok data ->
  (field "likes_remaining" data = VNumber 0 ->
   like env fuel userId photoId contentHash sNumber w = (Throw TinderOutOfLikesError, w'))
  /\
  (field "likes_remaining" data = VNumber 5 ->
   like env fuel userId photoId contentHash sNumber w = (Ok data, w')).
Proof.
  intros Hu Ht Hreq Hdata.
  rewrite (like_interpreted _ _ _ _ _ _ _ _ _ _ Hu Ht Hreq Hdata).
  unfold checkLikesRemaining. split; intros Hl; rewrite Hl; simpl.
  - assert (truthy data = true) as Hd.
    { destruct data; simpl in Hl; try discriminate; reflexivity. }
    now rewrite Hd.
  - now rewrite andb_false_r.
Qed.

Lemma like_likes_remaining_zero_or_five_witness :
  fst (likeRun noLikesLeft) = Throw TinderOutOfLikesError
  /\ fst (likeRun fiveLikesLeft) = Ok fiveLikesLeft.
Proof.
  split; unfold likeRun.
  - rewrite (proj1 (like_likes_remaining_zero_or_five
                      (likeEnv noLikesLeft) 2
                      (VString "u1") (VString "p1") (VString "h") (VNumber 7)
                      (authorizedClient (VObject []) "session")
                      (snd (likeRun noLikesLeft))
                      (okResponse noLikesLeft) noLikesLeft
                      eq_refl eq_refl eq_refl eq_refl) eq_refl).
    reflexivity.
  - rewrite (proj2 (like_likes_remaining_zero_or_five
                      (likeEnv fiveLikesLeft) 2
                      (VString "u1") (VString "p1") (VString "h") (VNumber 7)
                      (authorizedClient (VObject []) "session")
                      (snd (likeRun fiveLikesLeft))
                      (okResponse fiveLikesLeft) fiveLikesLeft
                      eq_refl eq_refl eq_refl eq_refl) eq_refl).
    reflexivity.
Defined.




(** ** Configuration merging *)

Lemma lookupField_setField (k k' : string) (v : JsValue) (fs : list (string * JsValue)) :
  lookupField k' (setField k v fs) = if String.eqb k' k then v else lookupField k' fs.
Proof.
  induction fs as [| [k0 v0] fs IH]; simpl.
  - destruct (String.eqb k' k); reflexivity.
  - destruct (String.eqb_spec k k0) as [-> | Hne]; simpl.
    + destruct (String.eqb k' k0); reflexivity.
    + destruct (String.eqb_spec k' k0) as [-> | Hne'].
      * destruct (String.eqb_spec k0 k); [congruence | reflexivity].
      * exact IH.
Qed.

Lemma lookupField_bindings (k : string) (fs : list (string * JsValue)) :
  lookupField k fs = hd VUndefined (bindings k fs).
Proof.
  unfold bindings. induction fs as [| [k0 v0] fs IH]; simpl; [reflexivity |].
  destruct (String.eqb k k0); simpl; [reflexivity | exact IH].
Qed.

Lemma mergeFields_lookup (deep : JsValue -> JsValue -> JsValue) (k : string)
    (sfs : list (string * JsValue)) :
  forall acc,
    lookupField k (mergeFields deep sfs acc)
    = fold_left (assignDefault deep) (bindings k sfs) (lookupField k acc).
Proof.
  unfold bindings.
  induction sfs as [| [k0 sv] sfs IH]; intros acc; simpl; [reflexivity |].
  rewrite IH, lookupField_setField.
  destruct (String.eqb_spec k k0) as [-> | Hne]; simpl; reflexivity.
Qed.

Lemma getPath_undefined (path : list string) : getPath VUndefined path = VUndefined.
Proof. induction path; simpl; auto. Qed.

Lemma field_defaultsDeep (k : string) (ofs sfs : list (string * JsValue)) :
  field k (defaultsDeep (VObject ofs) (VObject sfs))
  = fold_left (assignDefault defaultsDeep) (bindings k sfs) (lookupField k ofs).
Proof. simpl. apply (mergeFields_lookup (fun ov sv => defaultsDeep ov sv)). Qed.

(** A value that the caller has given, and that is not a group, survives the
    merge with any defaults. *)
Lemma defaultsDeep_keeps (path : list string) :
  forall (object source v : JsValue),
    getPath object path = v ->
    isUndefined v = false ->
    isObject v = false ->
    getPath (defaultsDeep object source) path = v.
Proof.
  induction path as [| k rest IH]; intros object source v Hget Hdef Hobj.
  - simpl in *. subst v.
    destruct object; simpl in *; try discriminate; destruct source; reflexivity.
  - destruct object as [| | | | | | | ofs | | ];
      try (destruct source; exact Hget).
    destruct source as [| | | | | | | sfs | | ]; try exact Hget.
    cbn [getPath] in *. rewrite field_defaultsDeep.
    change (field k (VObject ofs)) with (lookupField k ofs) in Hget.
    generalize dependent (lookupField k ofs).
    induction (bindings k sfs) as [| sv svs IHs]; intros ov Hget; simpl; [exact Hget |].
    apply IHs. unfold assignDefault.
    destruct (isUndefined ov) eqn:Eu.
    + destruct ov; try discriminate. rewrite getPath_undefined in Hget.
      subst v. discriminate.
    + destruct (isObject ov && isObject sv); [| exact Hget].
      now apply IH.
Qed.

Lemma plainAlong_first (k : string) (rest : list string) (fs : list (string * JsValue)) :
  plainAlong (k :: rest) (VObject fs) = plainAlong rest (lookupField k fs).
Proof. reflexivity. Qed.

(** A default that sits at the end of a path through plain groups is taken
    wherever the caller has left that path unspecified. *)
Lemma defaultsDeep_fills (path : list string) :
  forall (ofs sfs : list (string * JsValue)) (d : JsValue),
    getPath (VObject sfs) path = d ->
    isUndefined d = false ->
    isObject d = false ->
    plainAlong path (VObject sfs) = true ->
    unspecifiedAt path (VObject ofs) = true ->
    getPath (defaultsDeep (VObject ofs) (VObject sfs)) path = d.
Proof.
  induction path as [| k rest IH]; intros ofs sfs d Hget Hdef Hobj Hplain Hun.
  - simpl in Hun. discriminate.
  - cbn [getPath] in *. rewrite field_defaultsDeep.
    change (field k (VObject sfs)) with (lookupField k sfs) in Hget.
    rewrite plainAlong_first in Hplain.
    rewrite lookupField_bindings in Hget, Hplain.
    cbn [unspecifiedAt] in Hun.
    destruct (bindings k sfs) as [| sv svs]; simpl in Hget, Hplain.
    { rewrite getPath_undefined in Hget. subst d. discriminate. }
    simpl.
    assert (getPath (assignDefault defaultsDeep (lookupField k ofs) sv) rest = d) as Hfirst.
    { unfold assignDefault. destruct (lookupField k ofs) as [| | | | | | | ofs' | | ] eqn:Eo;
        simpl; try exact Hget;
        try (destruct rest; simpl in Hun; discriminate).
      destruct sv as [| | | | | | | sfs' | | ];
        try (destruct rest; [simpl in Hun; discriminate | simpl in Hplain; discriminate]).
      simpl. destruct rest as [| k' rest']; [simpl in Hun; discriminate |].
      now apply IH. }
    clear Hun Hget Hplain.
    generalize dependent (assignDefault defaultsDeep (lookupField k ofs) sv).
    induction svs as [| sv' svs IHs]; intros ov Hov; simpl; [exact Hov |].
    apply IHs. unfold assignDefault.
    destruct (isUndefined ov) eqn:Eu.
    + destruct ov; try discriminate. rewrite getPath_undefined in Hov.
      subst d. discriminate.
    + destruct (isObject ov && isObject sv'); [| exact Hov].
      now apply defaultsDeep_keeps.
Qed.

(** C8.  For every constructor options object: a documented default whose
    field the caller has left unspecified is in force after the merge (two
    tries, 1000 ms interval, 16000 ms ceiling, original error passed
    through; 12000 ms per call, threshold 80, 10800000 ms of open circuit),
    and a value that the caller has specified overrides the default. *)
Theorem constructor_merges_defaults (fields : list (string * JsValue)) :
  (forall (path : list string) (d : JsValue),
      In (path, d) documentedDefaults ->
      unspecifiedAt path (VObject fields) = true ->
      getPath (_options (constructor (VObject fields))) path = d)
  /\
  (forall (path : list string) (v : JsValue),
      plainAlong path (VObject fields) = true ->
      getPath (VObject fields) path = v ->
      isUndefined v = false ->
      isPrimitive v = true ->
      getPath (_options (constructor (VObject fields))) path = v).
Proof.
  split.
  - intros path d Hin Hun.
    change (_options (constructor (VObject fields)))
      with (defaultsDeep (VObject fields) defaultOptions).
    unfold defaultOptions.
    simpl in Hin.
    repeat (destruct Hin as [Hin | Hin];
            [inversion Hin; subst path d; clear Hin;
             apply defaultsDeep_fills; [reflexivity .. | exact Hun] |]).
    contradiction.
  - intros path v _ Hget Hdef Hprim.
    change (_options (constructor (VObject fields)))
      with (defaultsDeep (VObject fields) defaultOptions).
    apply defaultsDeep_keeps; [exact Hget | exact Hdef |].
    destruct v; simpl in *; congruence.
Qed.

Lemma constructor_merges_defaults_witness :
  getPath (_options (constructor threeTries)) ["retry"; "interval"] = VNumber 1000
  /\ getPath (_options (constructor threeTries)) ["retry"; "max_tries"] = VNumber 3.
Proof.
  split.
  - apply (proj1 (constructor_merges_defaults
                    [("retry", VObject [("max_tries", VNumber 3)])])).
    + simpl. right. left. reflexivity.
    + reflexivity.
  - apply (proj2 (constructor_merges_defaults
                    [("retry", VObject [("max_tries", VNumber 3)])]));
      reflexivity.
Defined.

(** Without any options every documented default is in force. *)
Lemma constructor_without_options :
  Forall (fun entry => getPath (_options (constructor VUndefined)) (fst entry) = snd entry)
         documentedDefaults.
Proof. repeat constructor. Qed.

(** ** The dispatchers *)

Section Dispatcher.

Variables (env : Env) (verb : Verb) (params : Options.t).

Lemma exec_answered (w : World) (ms : Z) (response : Response) :
  circuitOpen env (execs w) verb = false ->
  network env (List.length (sent w)) verb params = mkOutcome ms (Responded response) ->
  withinCallBound w ms = true ->
  exec env verb params w = (Ok response, advance ms (logSent verb params (countExec w))).
Proof.
  intros Hc Hn Hb. unfold exec. rewrite Hc. simpl. rewrite Hn. simpl.
  unfold withinCallBound in Hb.
  destruct (breakerTimeout (field "breaker" (_options (self w)))) as [bound |];
    [| reflexivity].
  apply negb_true_iff in Hb. now rewrite Hb.
Qed.

Lemma attempt_answered (w : World) (ms : Z) (response : Response) :
  circuitOpen env (execs w) verb = false ->
  network env (List.length (sent w)) verb params = mkOutcome ms (Responded response) ->
  withinCallBound w ms = true ->
  attempt env verb params w
  = ((if 500 <=? statusCode response
      then Throw (Error (statusLine (statusCode response) (statusMessage response)))
      else Ok response),
     advance ms (logSent verb params (countExec w))).
Proof.
  intros Hc Hn Hb. unfold attempt, bind.
  rewrite (exec_answered _ _ _ Hc Hn Hb). unfold rejectServerError.
  destruct (500 <=? statusCode response); reflexivity.
Qed.

Lemma retryLoop_again (fuel : nat) (func : Promise Response) (policy : RetryPolicy)
    (giveup : option Z) (tries : Z) (w w1 : World) (e : JsError) :
  func w = (Throw e, w1) ->
  exhausted policy giveup (tries + 1) (clock w1) = false ->
  retryLoop (S fuel) func policy giveup tries w
  = retryLoop fuel func policy giveup (tries + 1) (advance (interval policy) w1).
Proof. intros Hf Hx. simpl. now rewrite Hf, Hx. Qed.

Lemma retryLoop_settled (fuel : nat) (func : Promise Response) (policy : RetryPolicy)
    (giveup : option Z) (tries : Z) (w w1 : World) (response : Response) :
  func w = (Ok response, w1) ->
  retryLoop (S fuel) func policy giveup tries w = (Ok response, w1).
Proof. intros Hf. simpl. now rewrite Hf. Qed.

Lemma dispatch_retry (fuel : nat) (w : World) :
  dispatch env fuel verb params w
  = retryLoop fuel (attempt env verb params)
      (readRetryPolicy (field "retry" (_options (self w))))
      (option_map (fun t => clock w + t)
                  (timeout (readRetryPolicy (field "retry" (_options (self w))))))
      0 w.
Proof. destruct verb; reflexivity. Qed.

Lemma exhausted_false (policy : RetryPolicy) (start elapsed tries n : Z) :
  max_tries policy = Some n ->
  tries <> n ->
  belowCeiling policy elapsed = true ->
  exhausted policy (option_map (fun t => start + t) (timeout policy)) tries
            (start + elapsed) = false.
Proof.
  intros Hm Hne Hc. unfold exhausted, belowCeiling in *. rewrite Hm.
  apply orb_false_iff. split; [now apply Z.eqb_neq |].
  destruct (timeout policy) as [ceiling |]; simpl; [| reflexivity].
  apply negb_true_iff in Hc. apply Z.leb_gt in Hc. apply Z.leb_gt. lia.
Qed.

Lemma outgoing_app (w w' : World) (l : list (Verb * Options.t)) :
  sent w' = (sent w ++ l)%list -> outgoing w w' = l.
Proof.
  intros H. unfold outgoing. rewrite H.
  rewrite skipn_app, skipn_all, Nat.sub_diag. reflexivity.
Qed.

(** Whatever the environment does, one pass through the breaker invokes the
    transport at most once, with the verb and the options it was given, and
    exactly once when the circuit is closed. *)
Lemma attempt_trace (w : World) :
  exists n : nat,
    sent (snd (attempt env verb params w)) = (sent w ++ repeat (verb, params) n)%list
    /\ (circuitOpen env (execs w) verb = false -> n = 1%nat).
Proof.
  unfold attempt, bind, exec.
  destruct (circuitOpen env (execs w) verb).
  - exists 0%nat. simpl. rewrite app_nil_r. split; [reflexivity | discriminate].
  - exists 1%nat. split; [| reflexivity].
    destruct (breakerTimeout (field "breaker" (_options (self w)))) as [bound |].
    + destruct (Z.max 0 bound <? _); [reflexivity |].
      destruct (reply _) as [response | code]; [| reflexivity].
      unfold rejectServerError. destruct (500 <=? statusCode response); reflexivity.
    + destruct (reply _) as [response | code]; [| reflexivity].
      unfold rejectServerError. destruct (500 <=? statusCode response); reflexivity.
Qed.

Lemma retryLoop_trace (policy : RetryPolicy) (giveup : option Z) (fuel : nat) :
  forall (tries : Z) (w : World),
  exists n : nat,
    sent (snd (retryLoop fuel (attempt env verb params) policy giveup tries w))
    = (sent w ++ repeat (verb, params) n)%list
    /\ (fuel <> 0%nat -> circuitOpen env (execs w) verb = false -> (1 <= n)%nat).
Proof.
  induction fuel as [| fuel IH]; intros tries w.
  - exists 0%nat. simpl. rewrite app_nil_r. split; [reflexivity | congruence].
  - destruct (attempt_trace w) as (m & Hm & Hone). simpl.
    destruct (attempt env verb params w) as [[response | e |] w1]; simpl in Hm.
    + exists m. split; [exact Hm | intros _ Hc; rewrite (Hone Hc); lia].
    + destruct (exhausted policy giveup (tries + 1) (clock w1)).
      * exists m. split; [exact Hm | intros _ Hc; rewrite (Hone Hc); lia].
      * destruct (IH (tries + 1) (advance (interval policy) w1)) as (n & Hn & _).
        exists (m + n)%nat. split.
        -- rewrite Hn. cbn [sent advance]. rewrite Hm.
           now rewrite repeat_app, app_assoc.
        -- intros _ Hc. rewrite (Hone Hc). lia.
    + exists m. split; [exact Hm | intros _ Hc; rewrite (Hone Hc); lia].
Qed.

Lemma dispatch_trace (fuel : nat) (w : World) :
  exists n : nat,
    outgoing w (snd (dispatch env fuel verb params w)) = repeat (verb, params) n
    /\ (fuel <> 0%nat -> circuitOpen env (execs w) verb = false -> (1 <= n)%nat).
Proof.
  rewrite dispatch_retry.
  destruct (retryLoop_trace
              (readRetryPolicy (field "retry" (_options (self w))))
              (option_map (fun t => clock w + t)
                 (timeout (readRetryPolicy (field "retry" (_options (self w))))))
              fuel 0 w) as (n & Hn & Hone).
  exists n. split; [now apply outgoing_app | exact Hone].
Qed.

End Dispatcher.

(** C2, as stated, fails: three tries are configured and the transport is
    set to answer 500, 500, 200, but each answer takes eleven seconds; after
    the second failure the sixteen-second ceiling is passed, so the second
    error is surfaced and only two transport attempts are made. *)
Lemma slow_server_errors_counterexample :
  max_tries (readRetryPolicy
               (field "retry" (_options (self (authorizedClient threeTries "session")))))
    = Some 3
  /\ map (fun k => reply (network slowFailures k GET
                             (recommendationsOptions (VString "session"))))
         [0; 1; 2]%nat
     = [Responded (mkResponse 500 "Internal Server Error" VUndefined);
        Responded (mkResponse 500 "Internal Server Error" VUndefined);
        Responded (mkResponse 200 "OK" (VObject [("results", VArray [])]))]
  /\ fst (dispatch slowFailures 3 GET (recommendationsOptions (VString "session"))
                   (authorizedClient threeTries "session"))
     = Throw (Error [Val (VNumber 500); Lit " "; Val (VString "Internal Server Error")])
  /\ List.length
       (outgoing (authorizedClient threeTries "session")
          (snd (dispatch slowFailures 3 GET (recommendationsOptions (VString "session"))
                         (authorizedClient threeTries "session"))))
     = 2%nat.
Proof. repeat split. Qed.

(** C2, amended.  For either dispatcher: a response with status 500 or more
    is raised as a failure, an [Error] made of the status code and the
    status message; and with [max_tries] 3, when the breaker lets the three
    tries pass, the transport answers them within the per-call bound with
    two such responses and then one with a status below 500, and neither
    failure comes too late for another try under the overall ceiling, the
    dispatch returns the third response and makes exactly three transport
    attempts. *)
Theorem dispatch_retries_server_errors (env : Env) (fuel : nat) (verb : Verb)
    (params : Options.t) (w : World) (l1 l2 l3 : Z) (r1 r2 r3 : Response) :
  let policy := readRetryPolicy (field "retry" (_options (self w))) in
  (forall (response : Response) (w0 : World),
      500 <= statusCode response ->
      rejectServerError response w0
      = (Throw (Error [Val (VNumber (statusCode response)); Lit " ";
                       Val (VString (statusMessage response))]), w0))
  /\
  (max_tries policy = Some 3 ->
  answers env verb params w 0 l1 r1 -> 500 <= statusCode r1 ->
  answers env verb params w 1 l2 r2 -> 500 <= statusCode r2 ->
  answers env verb params w 2 l3 r3 -> statusCode r3 < 500 ->
  belowCeiling policy (Z.max 0 l1) = true ->
  belowCeiling policy (Z.max 0 l1 + Z.max 0 (interval policy) + Z.max 0 l2) = true ->
  (3 <= fuel)%nat ->
  fst (dispatch env fuel verb params w) = Ok r3
  /\ outgoing w (snd (dispatch env fuel verb params w))
     = [(verb, params); (verb, params); (verb, params)]).
Proof.
  intros policy. split.
  { intros response w0 Hge. unfold rejectServerError.
    apply Z.leb_le in Hge. now rewrite Hge. }
  intros Hmax (Hc1 & Hn1 & Hb1) Hs1 (Hc2 & Hn2 & Hb2) Hs2 (Hc3 & Hn3 & Hb3) Hs3
         Hceil1 Hceil2 Hfuel.
  destruct fuel as [| [| [| fuel]]]; try lia.
  rewrite dispatch_retry. fold policy.
  rewrite Nat.add_0_r in Hc1, Hn1.
  pose proof (attempt_answered _ _ _ _ _ _ Hc1 Hn1 Hb1) as Ha1.
  apply Z.leb_le in Hs1. rewrite Hs1 in Ha1.
  rewrite (retryLoop_again _ _ _ _ _ _ _ _ Ha1)
    by (apply exhausted_false with (n := 3) (elapsed := Z.max 0 l1); auto; lia).
  set (w1 := advance (interval policy) (advance l1 (logSent verb params (countExec w)))).
  assert (attempt env verb params w1
          = (Throw (Error (statusLine (statusCode r2) (statusMessage r2))),
             advance l2 (logSent verb params (countExec w1)))) as Ha2.
  { pose proof (attempt_answered env verb params w1 l2 r2) as H.
    apply Z.leb_le in Hs2. rewrite Hs2 in H. apply H.
    - subst w1. cbn [execs advance logSent countExec].
      now rewrite Nat.add_1_r in Hc2.
    - subst w1. cbn [sent advance logSent countExec]. rewrite length_app. exact Hn2.
    - exact Hb2. }
  rewrite (retryLoop_again _ _ _ _ _ _ _ _ Ha2).
  2:{ subst w1. cbn [clock advance logSent countExec].
      replace (clock w + Z.max 0 l1 + Z.max 0 (interval policy) + Z.max 0 l2)
        with (clock w + (Z.max 0 l1 + Z.max 0 (interval policy) + Z.max 0 l2)) by lia.
      apply exhausted_false with (n := 3); auto; lia. }
  set (w2 := advance (interval policy) (advance l2 (logSent verb params (countExec w1)))).
  assert (attempt env verb params w2
          = (Ok r3, advance l3 (logSent verb params (countExec w2)))) as Ha3.
  { pose proof (attempt_answered env verb params w2 l3 r3) as H.
    apply Z.leb_gt in Hs3. rewrite Hs3 in H. apply H.
    - subst w2 w1. cbn [execs advance logSent countExec].
      replace (S (S (execs w))) with (execs w + 2)%nat by lia.
      exact Hc3.
    - subst w2 w1. cbn [sent advance logSent countExec]. rewrite !length_app.
      cbn [List.length].
      replace (List.length (sent w) + 1 + 1)%nat with (List.length (sent w) + 2)%nat by lia.
      exact Hn3.
    - exact Hb3. }
  rewrite (retryLoop_settled _ _ _ _ _ _ _ _ Ha3).
  split; [reflexivity |].
  apply outgoing_app. subst w2 w1. cbn [sent advance logSent countExec snd].
  rewrite <- !app_assoc. reflexivity.
Qed.

(** Under the default policy ([max_tries] 2) a dispatch that keeps getting
    server errors makes two transport attempts and surfaces the last error. *)
Lemma default_policy_two_attempts :
  fst (dispatch alwaysFailing 5 POST (authorizeOptions (VString "t") (VString "i"))
                (newClient VUndefined))
    = Throw (Error [Val (VNumber 500); Lit " "; Val (VString "Internal Server Error")])
  /\ List.length
       (outgoing (newClient VUndefined)
          (snd (dispatch alwaysFailing 5 POST
                         (authorizeOptions (VString "t") (VString "i"))
                         (newClient VUndefined))))
     = 2%nat.
Proof. split; reflexivity. Qed.

Lemma dispatch_retries_server_errors_witness :
  fst (dispatch quickFailures 3 GET (recommendationsOptions (VString "session"))
                (authorizedClient threeTries "session"))
    = Ok (okResponse (VObject [("results", VArray [])]))
  /\ outgoing (authorizedClient threeTries "session")
       (snd (dispatch quickFailures 3 GET (recommendationsOptions (VString "session"))
                      (authorizedClient threeTries "session")))
     = [(GET, recommendationsOptions (VString "session"));
        (GET, recommendationsOptions (VString "session"));
        (GET, recommendationsOptions (VString "session"))].
Proof.
  apply (proj2 (dispatch_retries_server_errors
                  quickFailures 3 GET (recommendationsOptions (VString "session"))
                  (authorizedClient threeTries "session") 20 20 20
                  serverError serverError
                  (okResponse (VObject [("results", VArray [])])))).
  - reflexivity.
  - repeat split.
  - simpl. lia.
  - repeat split.
  - simpl. lia.
  - repeat split.
  - simpl. lia.
  - reflexivity.
  - reflexivity.
  - lia.
Defined.

Lemma snd_bind_lift {A B : Type} (p : Promise A) (f : A -> Result B) (w : World) :
  snd ((a <- p ;; lift (f a)) w) = snd (p w).
Proof. unfold bind, lift. destruct (p w) as [[a | e |] w']; reflexivity. Qed.

(** ** [getUpdates] *)

Lemma getUpdates_sends (env : Env) (fuel : nat) (w : World)
    (lastActivityDate value : JsValue) :
  getUpdates env fuel lastActivityDate w
  = (response <- _postRequest env fuel
                   (updatesOptions (_authToken (self w)) value) ;;
     lift (handleResponse response)) w ->
  sendsLastActivityDate env fuel w lastActivityDate value.
Proof.
  intros Hrun. split; [exact Hrun |].
  rewrite Hrun, snd_bind_lift.
  destruct (dispatch_trace env POST
              (updatesOptions (_authToken (self w)) value) fuel w) as (n & Hn & Hone).
  simpl in Hn. rewrite Hn. split.
  - apply Forall_forall. intros invocation Hin.
    apply repeat_spec in Hin. subst invocation. split; reflexivity.
  - intros Hfuel Hclosed. specialize (Hone Hfuel Hclosed).
    destruct n; [lia | discriminate].
Qed.

(** C3, as stated, fails: a String object whose text is not an ISO-8601
    date is let through and sent as it is. *)
Lemma getUpdates_unchecked_text_counterexample :
  fst (updatesRun (VStringObject "yesterday")) = Ok (VObject [("matches", VArray [])])
  /\ map lastActivityDateSent
         (outgoing (authorizedClient VUndefined "session")
                   (snd (updatesRun (VStringObject "yesterday"))))
     = [VStringObject "yesterday"].
Proof. split; reflexivity. Qed.

(** The [instanceof String] test does not hold of a primitive string: one
    that is not empty is turned down, whatever its text. *)
Lemma getUpdates_primitive_string :
  fst (updatesRun (VString "2017-03-25T12:00:00.000Z")) = Throw invalidArguments.
Proof. reflexivity. Qed.

(** C3, amended.  With a credential present, [getUpdates] lets through a
    Date, a String object (whatever its text) and the empty string, and
    turns down with the invalid-arguments error every argument that is
    neither a date nor a string (null, booleans, numbers, arrays, plain
    objects).  For every Date with a valid time value each request sent
    carries that date's ISO-8601 form as [last_activity_date]; without an
    argument it carries the empty string. *)
Theorem getUpdates_last_activity_date (env : Env) (fuel : nat) (w : World) :
  truthy (_authToken (self w)) = true ->
  (forall t : Z,
      sendsLastActivityDate env fuel w (VDate (Some t))
                            (VString (DateIso.isoOfTimeValue t)))
  /\ sendsLastActivityDate env fuel w VUndefined (VString "")
  /\ sendsLastActivityDate env fuel w (VString "") (VString "")
  /\ (forall s : string,
         sendsLastActivityDate env fuel w (VStringObject s) (VStringObject s))
  /\ (forall lastActivityDate : JsValue,
         neitherDateNorString lastActivityDate = true ->
         getUpdates env fuel lastActivityDate w = (Throw invalidArguments, w)).
Proof.
  intros Ht.
  assert (forall lastActivityDate value,
             (lastActivityDate = VUndefined /\ value = VString ""
              \/ lastActivityDate = VString "" /\ value = VString ""
              \/ (exists s, lastActivityDate = VStringObject s /\ value = VStringObject s)
              \/ (exists t, lastActivityDate = VDate (Some t)
                            /\ value = VString (DateIso.isoOfTimeValue t))) ->
             sendsLastActivityDate env fuel w lastActivityDate value) as Hsends.
  { intros lastActivityDate value Hcase. apply getUpdates_sends.
    destruct Hcase as [[-> ->] | [[-> ->] | [(s & -> & ->) | (t & -> & ->)]]];
      unfold getUpdates; run_guards; rewrite Ht; reflexivity. }
  split; [| split; [| split; [| split]]].
  - intros t. apply Hsends. right. right. right. now exists t.
  - apply Hsends. now left.
  - apply Hsends. right. now left.
  - intros s. apply Hsends. right. right. left. now exists s.
  - intros lastActivityDate Hkind.
    unfold getUpdates. destruct lastActivityDate; try discriminate; reflexivity.
Qed.

Lemma getUpdates_last_activity_date_witness :
  sendsLastActivityDate updatesEnv 2 (authorizedClient VUndefined "session")
    (VDate (Some 1490443200000)) (VString "2017-03-25T12:00:00.000Z")
  /\ sendsLastActivityDate updatesEnv 2 (authorizedClient VUndefined "session")
       VUndefined (VString "")
  /\ getUpdates updatesEnv 2 (VNumber 1490443200000) (authorizedClient VUndefined "session")
     = (Throw invalidArguments, authorizedClient VUndefined "session").
Proof.
  pose proof (getUpdates_last_activity_date updatesEnv 2
                (authorizedClient VUndefined "session") eq_refl)
    as (Hdate & Hnone & _ & _ & Hother).
  split; [exact (Hdate 1490443200000) | split; [exact Hnone |]].
  apply Hother. reflexivity.
Defined.

(** The request that the poll of the scenario sends for a date. *)
Lemma getUpdates_date_request :
  outgoing (authorizedClient VUndefined "session")
           (snd (updatesRun (VDate (Some 1490443200000))))
  = [(POST, updatesOptions (VString "session") (VString "2017-03-25T12:00:00.000Z"))].
Proof. reflexivity. Qed.

(** An invalid date passes the argument check and then fails in
    [toISOString], before anything is sent. *)
Lemma getUpdates_invalid_date :
  updatesRun (VDate None)
  = (Throw (RangeError [Lit "Invalid time value"]), authorizedClient VUndefined "session").
Proof. reflexivity. Qed.

(** ** [authorize] *)

(** C6, as stated, fails: the dispatcher hands back a 200 response whose body
    has a token field, yet [authorize] fails and stores no credential,
    because the body also carries an application-level status. *)
Lemma authorize_application_error_counterexample :
  fst (_postRequest (authorizeEnv tokenWithApplicationError) 2
         (authorizeOptions (VString "fb-token") (VString "fb-id")) (newClient VUndefined))
    = Ok (mkResponse 200 "OK" tokenWithApplicationError)
  /\ field "token" tokenWithApplicationError = VString "abc"
  /\ fst (authorizeRun tokenWithApplicationError)
     = Throw (Error [Val (VNumber 500); Lit " "; Val (VString "boom")])
  /\ _authToken (self (snd (authorizeRun tokenWithApplicationError))) = VUndefined.
Proof. repeat split. Qed.

(** C6, amended.  [authorize] called with a missing (falsy) facebook token
    or user id fails with the invalid-arguments error before any network
    attempt; with both present, on a 200 response whose body is an object
    with no application-level status other than 200, the body is returned
    and the session credential afterwards is the body's [token] field. *)
Theorem authorize_arguments_and_credential (env : Env) (fuel : nat)
    (facebookAccessToken facebookUserId : JsValue) (w : World) :
  (truthy facebookAccessToken = false \/ truthy facebookUserId = false ->
   authorize env fuel facebookAccessToken facebookUserId w = (Throw invalidArguments, w))
  /\
  (forall (response : Response) (w' : World) (fields : list (string * JsValue)),
      truthy facebookAccessToken = true ->
      truthy facebookUserId = true ->
      _postRequest env fuel (authorizeOptions facebookAccessToken facebookUserId) w
        = (Ok response, w') ->
      statusCode response = 200 ->
      body response = VObject fields ->
      truthy (lookupField "status" fields) = false
        \/ lookupField "status" fields = VNumber 200 ->
      fst (authorize env fuel facebookAccessToken facebookUserId w) = Ok (VObject fields)
      /\ _authToken (self (snd (authorize env fuel facebookAccessToken facebookUserId w)))
         = lookupField "token" fields).
Proof.
  split.
  - intros Hmissing. unfold authorize. run_guards.
    destruct Hmissing as [H | H]; rewrite H; simpl; [| rewrite orb_true_r]; reflexivity.
  - intros response w' fields Ha Hu Hreq Hstatus Hbody Happ.
    unfold authorize. run_guards. rewrite Ha, Hu. simpl. rewrite Hreq.
    unfold handleResponse. rewrite Hstatus, Hbody. simpl.
    assert (truthy (lookupField "status" fields)
            && negb (strictEqPrim (lookupField "status" fields) (VNumber 200)) = false)
      as Hpass.
    { destruct Happ as [H | H]; rewrite H; reflexivity. }
    rewrite Hpass. simpl. split; reflexivity.
Qed.

Lemma authorize_arguments_and_credential_witness :
  authorize (authorizeEnv tokenIssued) 2 VUndefined (VString "fb-id") (newClient VUndefined)
    = (Throw invalidArguments, newClient VUndefined)
  /\ fst (authorizeRun tokenIssued) = Ok tokenIssued
  /\ _authToken (self (snd (authorizeRun tokenIssued))) = VString "abc".
Proof.
  split.
  - apply (proj1 (authorize_arguments_and_credential
                    (authorizeEnv tokenIssued) 2 VUndefined (VString "fb-id")
                    (newClient VUndefined))).
    left. reflexivity.
  - apply (proj2 (authorize_arguments_and_credential
                    (authorizeEnv tokenIssued) 2 (VString "fb-token") (VString "fb-id")
                    (newClient VUndefined))
                 (okResponse tokenIssued)
                 (snd (_postRequest (authorizeEnv tokenIssued) 2
                         (authorizeOptions (VString "fb-token") (VString "fb-id"))
                         (newClient VUndefined))));
      try reflexivity.
    left. reflexivity.
Defined.

(** * Further properties of the wrapper *)

(** ** The shape of an authenticated call *)

Ltac run_chain :=
  unfold bind, throwIf, getAuthToken, throw, ret, lift; simpl.

Ltac settle_chain :=
  match goal with
  | |- context [match ?p ?w with _ => _ end] =>
      match type of (p w) with
      | (Result Response * World)%type =>
          destruct (p w) as [[?response | ?e |] ?w']; try reflexivity
      end
  end;
  match goal with
  | |- context [handleResponse ?r] =>
      destruct (handleResponse r) as [?data | ?e |]; reflexivity
  end.

(** Once the arguments and the credential have passed the checks, every
    authenticated method is the same chain: dispatch, interpret, finish. *)
Lemma invoke_through (env : Env) (fuel : nat) (call : AuthenticatedCall) (w : World)
    (options : Options.t) :
  truthy (_authToken (self w)) = true ->
  argumentsValid call = true ->
  optionsOf (_authToken (self w)) call = Some options ->
  invoke env fuel call w
  = (response <- dispatch env fuel (verbOf call) options ;;
     data <- lift (handleResponse response) ;;
     lift (finish call data)) w.
Proof.
  intros Ht Hv Ho.
  destruct call; simpl in Hv, Ho; cbn [dispatch invoke verbOf].
  - inversion Ho; subst options. unfold getRecommendations. run_chain.
    rewrite Ht. simpl. settle_chain.
  - inversion Ho; subst options. unfold getAccount. run_chain.
    rewrite Ht. simpl. settle_chain.
  - inversion Ho; subst options. unfold getUser. run_chain.
    rewrite Hv. simpl. rewrite Ht. simpl. settle_chain.
  - unfold getUpdates. run_chain.
    destruct (defaultLastActivityDate lastActivityDate) as [| | | | | s | | | s | [t |]];
      simpl in Hv; try discriminate;
      inversion Ho; subst options; simpl; try rewrite Hv; simpl;
      rewrite Ht; simpl; settle_chain.
  - inversion Ho; subst options. unfold sendMessage. run_chain.
    apply andb_true_iff in Hv. destruct Hv as [Hm Hmsg]. rewrite Hm, Hmsg. simpl. rewrite Ht. simpl.
    settle_chain.
  - inversion Ho; subst options. unfold like. run_chain.
    rewrite Hv. simpl. rewrite Ht. simpl. settle_chain.
  - inversion Ho; subst options. unfold pass. run_chain.
    rewrite Hv. simpl. rewrite Ht. simpl. settle_chain.
Qed.

Lemma invoke_invalid_arguments (env : Env) (fuel : nat) (call : AuthenticatedCall)
    (w : World) :
  argumentsValid call = false ->
  invoke env fuel call w = (Throw invalidArguments, w).
Proof.
  intros Hv. destruct call; simpl in Hv; try discriminate; cbn [invoke].
  - unfold getUser. run_chain. now rewrite Hv.
  - unfold getUpdates. run_chain.
    destruct (instanceofDate (defaultLastActivityDate lastActivityDate)),
             (instanceofString (defaultLastActivityDate lastActivityDate)),
             (strictEqPrim (defaultLastActivityDate lastActivityDate) (VString ""));
      simpl in Hv; try discriminate; reflexivity.
  - unfold sendMessage. run_chain.
    destruct (truthy matchId), (truthy message); simpl in Hv; try discriminate; reflexivity.
  - unfold like. run_chain. now rewrite Hv.
  - unfold pass. run_chain. now rewrite Hv.
Qed.

Lemma invoke_no_credential (env : Env) (fuel : nat) (call : AuthenticatedCall)
    (w : World) :
  argumentsValid call = true ->
  truthy (_authToken (self w)) = false ->
  invoke env fuel call w = (Throw TinderNotAuthorizedError, w).
Proof.
  intros Hv Ht. destruct call; simpl in Hv; cbn [invoke].
  - unfold getRecommendations. run_chain. now rewrite Ht.
  - unfold getAccount. run_chain. now rewrite Ht.
  - unfold getUser. run_chain. rewrite Hv. simpl. now rewrite Ht.
  - unfold getUpdates. run_chain.
    destruct (instanceofDate (defaultLastActivityDate lastActivityDate)),
             (instanceofString (defaultLastActivityDate lastActivityDate)),
             (strictEqPrim (defaultLastActivityDate lastActivityDate) (VString ""));
      simpl in Hv; try discriminate; simpl; now rewrite Ht.
  - unfold sendMessage. run_chain.
    apply andb_true_iff in Hv. destruct Hv as [Hm Hmsg]. rewrite Hm, Hmsg. simpl.
    now rewrite Ht.
  - unfold like. run_chain. rewrite Hv. simpl. now rewrite Ht.
  - unfold pass. run_chain. rewrite Hv. simpl. now rewrite Ht.
Qed.

Lemma invoke_invalid_date (env : Env) (fuel : nat) (call : AuthenticatedCall)
    (w : World) :
  argumentsValid call = true ->
  truthy (_authToken (self w)) = true ->
  optionsOf (_authToken (self w)) call = None ->
  invoke env fuel call w = (Throw (RangeError [Lit "Invalid time value"]), w).
Proof.
  intros Hv Ht Ho. destruct call; simpl in Ho; try discriminate.
  cbn [invoke]. unfold getUpdates. run_chain.
  destruct (defaultLastActivityDate lastActivityDate) as [| | | | | s | | | s | [t |]];
    try discriminate.
  simpl. now rewrite Ht.
Qed.

(** A call either stops at one of its checks, before the dispatcher and with
    the world as it was, or goes through the chain. *)
Lemma invoke_cases (env : Env) (fuel : nat) (call : AuthenticatedCall) (w : World) :
  (exists e, invoke env fuel call w = (Throw e, w))
  \/ (exists options,
         truthy (_authToken (self w)) = true
         /\ argumentsValid call = true
         /\ optionsOf (_authToken (self w)) call = Some options).
Proof.
  destruct (argumentsValid call) eqn:Hv.
  - destruct (truthy (_authToken (self w))) eqn:Ht.
    + destruct (optionsOf (_authToken (self w)) call) as [options |] eqn:Ho.
      * right. now exists options.
      * left. eexists. now apply invoke_invalid_date.
    + left. eexists. now apply invoke_no_credential.
  - left. eexists. now apply invoke_invalid_arguments.
Qed.

Lemma snd_chain {A B C : Type} (p : Promise A) (f : A -> Result B) (g : B -> Result C)
    (w : World) :
  snd ((a <- p ;; b <- lift (f a) ;; lift (g b)) w) = snd (p w).
Proof.
  unfold bind, lift. destruct (p w) as [[a | e |] w']; try reflexivity.
  destruct (f a); reflexivity.
Qed.

Lemma outgoing_none (w : World) : outgoing w w = [].
Proof. unfold outgoing. apply skipn_all. Qed.

(** ** The dispatchers, continued *)

Section DispatcherFacts.

Variables (env : Env) (verb : Verb) (params : Options.t).

Lemma attempt_self (w : World) : self (snd (attempt env verb params w)) = self w.
Proof.
  unfold attempt, bind, exec.
  destruct (circuitOpen env (execs w) verb); [reflexivity |].
  destruct (breakerTimeout (field "breaker" (_options (self w)))) as [bound |].
  - destruct (Z.max 0 bound <? _); [reflexivity |].
    destruct (reply _) as [response | code]; [| reflexivity].
    unfold rejectServerError. destruct (500 <=? statusCode response); reflexivity.
  - destruct (reply _) as [response | code]; [| reflexivity].
    unfold rejectServerError. destruct (500 <=? statusCode response); reflexivity.
Qed.

Lemma retryLoop_self (policy : RetryPolicy) (giveup : option Z) (fuel : nat) :
  forall (tries : Z) (w : World),
    self (snd (retryLoop fuel (attempt env verb params) policy giveup tries w)) = self w.
Proof.
  induction fuel as [| fuel IH]; intros tries w; [reflexivity |].
  pose proof (attempt_self w) as Hs. simpl.
  destruct (attempt env verb params w) as [[response | e |] w1]; simpl in Hs;
    try exact Hs.
  destruct (exhausted policy giveup (tries + 1) (clock w1)); [exact Hs |].
  rewrite IH. exact Hs.
Qed.

Lemma dispatch_self (fuel : nat) (w : World) :
  self (snd (dispatch env fuel verb params w)) = self w.
Proof. rewrite dispatch_retry. apply retryLoop_self. Qed.

(** What one pass through the breaker can yield: a response below 500, or
    one of four kinds of error. *)
Lemma attempt_result (w : World) :
  match fst (attempt env verb params w) with
  | Ok response => statusCode response < 500
  | Throw e => attemptError e
  | OutOfFuel => False
  end.
Proof.
  assert (forall (response : Response) (w0 : World),
             match fst (rejectServerError response w0) with
             | Ok r => statusCode r < 500
             | Throw e => attemptError e
             | OutOfFuel => False
             end) as Hreject.
  { intros response w0. unfold rejectServerError.
    destruct (500 <=? statusCode response) eqn:E; simpl.
    - right. right. right. exists (statusCode response), (statusMessage response).
      split; [now apply Z.leb_le | reflexivity].
    - now apply Z.leb_gt. }
  unfold attempt, bind, exec.
  destruct (circuitOpen env (execs w) verb); [now left |].
  destruct (breakerTimeout (field "breaker" (_options (self w)))) as [bound |].
  - destruct (Z.max 0 bound <? _); [right; now left |].
    destruct (reply _) as [response | code].
    + apply Hreject.
    + right. right. left. now exists code.
  - destruct (reply _) as [response | code].
    + apply Hreject.
    + right. right. left. now exists code.
Qed.

Lemma retryLoop_result (policy : RetryPolicy) (giveup : option Z) (fuel : nat) :
  forall (tries : Z) (w : World),
    match fst (retryLoop fuel (attempt env verb params) policy giveup tries w) with
    | Ok response => statusCode response < 500
    | Throw e => attemptError e \/ exists e', e = RetryTimedOut e' /\ attemptError e'
    | OutOfFuel => True
    end.
Proof.
  induction fuel as [| fuel IH]; intros tries w; [exact I |].
  pose proof (attempt_result w) as Hr. simpl.
  destruct (attempt env verb params w) as [[response | e |] w1]; simpl in Hr;
    try exact Hr; [| exact I].
  destruct (exhausted policy giveup (tries + 1) (clock w1)); [| apply IH].
  simpl. destruct (throw_original policy); [now left | right; now exists e].
Qed.

Lemma dispatch_result (fuel : nat) (w : World) :
  match fst (dispatch env fuel verb params w) with
  | Ok response => statusCode response < 500
  | Throw e => attemptError e \/ exists e', e = RetryTimedOut e' /\ attemptError e'
  | OutOfFuel => True
  end.
Proof. rewrite dispatch_retry. apply retryLoop_result. Qed.

End DispatcherFacts.

Lemma handleResponse_ok (response : Response) (data : JsValue) :
  handleResponse response = Ok data ->
  statusCode response < 300
  /\ data = body response
  /\ (truthy (field "status" data) = false \/ field "status" data = VNumber 200).
Proof.
  unfold handleResponse.
  destruct (300 <=? statusCode response) eqn:E.
  - destruct (statusCode response =? 401); discriminate.
  - apply Z.leb_gt in E.
    destruct (truthy (body response) && truthy (field "status" (body response))
              && negb (strictEqPrim (field "status" (body response)) (VNumber 200)))
      eqn:Eg; [discriminate |].
    intros H. inversion H; subst data. repeat split; [exact E |].
    destruct (truthy (field "status" (body response))) eqn:Es; [| now left].
    right. rewrite (truthy_field_truthy _ _ Es) in Eg. simpl in Eg.
    apply negb_false_iff in Eg. now apply strictEqPrim_number.
Qed.

Lemma handleResponse_throw (response : Response) (e : JsError) :
  handleResponse response = Throw e ->
  (e = TinderNotAuthorizedError /\ statusCode response = 401)
  \/ (exists message, e = Error message).
Proof.
  unfold handleResponse.
  destruct (300 <=? statusCode response).
  - destruct (statusCode response =? 401) eqn:E; intros H; inversion H.
    + left. split; [reflexivity | now apply Z.eqb_eq].
    + right. eexists. reflexivity.
  - destruct (_ && _ && _); intros H; inversion H. right. eexists. reflexivity.
Qed.

Lemma options_shape (authToken : JsValue) (call : AuthenticatedCall) (options : Options.t) :
  optionsOf authToken call = Some options ->
  Options.headers options = [("X-Auth-Token", authToken)]
  /\ Options.json options = true
  /\ (verbOf call = GET -> Options.body options = VUndefined).
Proof.
  assert (forall o : Options.t,
             Some o = Some options ->
             Options.headers o = [("X-Auth-Token", authToken)] ->
             Options.json o = true ->
             (verbOf call = GET -> Options.body o = VUndefined) ->
             Options.headers options = [("X-Auth-Token", authToken)]
             /\ Options.json options = true
             /\ (verbOf call = GET -> Options.body options = VUndefined)) as Hcase.
  { intros o Ho. injection Ho as <-. auto. }
  destruct call; simpl; intros H.
  - apply (Hcase _ H); auto.
  - apply (Hcase _ H); auto.
  - apply (Hcase _ H); auto.
  - destruct (defaultLastActivityDate lastActivityDate) as [| | | | | s | | | s | [t |]];
      try discriminate; apply (Hcase _ H); auto; discriminate.
  - apply (Hcase _ H); auto; discriminate.
  - apply (Hcase _ H); auto.
  - apply (Hcase _ H); auto.
Qed.

(** The requests of a call are copies of one request: the verb of the
    method with the literal it builds. *)
Lemma invoke_trace (env : Env) (fuel : nat) (call : AuthenticatedCall) (w : World) :
  outgoing w (snd (invoke env fuel call w)) = []
  \/ exists options n,
       optionsOf (_authToken (self w)) call = Some options
       /\ outgoing w (snd (invoke env fuel call w)) = repeat (verbOf call, options) n.
Proof.
  destruct (invoke_cases env fuel call w) as [[e He] | (options & Ht & Hv & Ho)].
  - left. rewrite He. apply outgoing_none.
  - right. rewrite (invoke_through _ _ _ _ _ Ht Hv Ho), snd_chain.
    destruct (dispatch_trace env (verbOf call) options fuel w) as (n & Hn & _).
    now exists options, n.
Qed.

(** X3.  Every request that an authenticated call sends goes out with the
    verb of its method, with the stored credential as its only header
    ([X-Auth-Token]) and with the [json] flag set; and a call whose checks
    pass sends at least one request when the breaker lets its first try
    through. *)
Theorem authenticated_request_shape (env : Env) (fuel : nat) (call : AuthenticatedCall)
    (w : World) :
  Forall (fun invocation =>
            fst invocation = verbOf call
            /\ Options.headers (snd invocation) = [("X-Auth-Token", _authToken (self w))]
            /\ Options.json (snd invocation) = true)
         (outgoing w (snd (invoke env fuel call w)))
  /\
  (truthy (_authToken (self w)) = true ->
   argumentsValid call = true ->
   optionsOf (_authToken (self w)) call <> None ->
   fuel <> 0%nat ->
   circuitOpen env (execs w) (verbOf call) = false ->
   outgoing w (snd (invoke env fuel call w)) <> []).
Proof.
  split.
  - destruct (invoke_trace env fuel call w) as [Hnone | (options & n & Ho & Hn)].
    + rewrite Hnone. constructor.
    + rewrite Hn. apply Forall_forall. intros invocation Hin.
      apply repeat_spec in Hin. subst invocation.
      destruct (options_shape _ _ _ Ho) as (Hh & Hj & _). now repeat split.
  - intros Ht Hv Ho Hfuel Hclosed.
    destruct (optionsOf (_authToken (self w)) call) as [options |] eqn:Eo; [| congruence].
    rewrite (invoke_through _ _ _ _ _ Ht Hv Eo), snd_chain.
    destruct (dispatch_trace env (verbOf call) options fuel w) as (n & Hn & Hone).
    rewrite Hn. specialize (Hone Hfuel Hclosed). destruct n; [lia | discriminate].
Qed.

Lemma authenticated_request_shape_witness :
  outgoing session (snd (sessionRun (okResponse (VObject [])) (GetUser (VString "u1"))))
  <> [].
Proof.
  apply (proj2 (authenticated_request_shape
                  (oneAnswer (okResponse (VObject []))) 2 (GetUser (VString "u1")) session)).
  - reflexivity.
  - reflexivity.
  - discriminate.
  - discriminate.
  - reflexivity.
Defined.


(** X4.  The requests of the five GET methods carry no body, and every
    request of [sendMessage] carries the body [{ message }]. *)
Theorem authenticated_request_body (env : Env) (fuel : nat) (call : AuthenticatedCall)
    (w : World) :
  (verbOf call = GET ->
   Forall (fun invocation => Options.body (snd invocation) = VUndefined)
          (outgoing w (snd (invoke env fuel call w))))
  /\
  (forall matchId message : JsValue,
      call = SendMessage matchId message ->
      Forall (fun invocation =>
                Options.body (snd invocation) = VObject [("message", message)])
             (outgoing w (snd (invoke env fuel call w)))).
Proof.
  split.
  - intros Hget.
    destruct (invoke_trace env fuel call w) as [Hnone | (options & n & Ho & Hn)].
    + rewrite Hnone. constructor.
    + rewrite Hn. apply Forall_forall. intros invocation Hin.
      apply repeat_spec in Hin. subst invocation.
      destruct (options_shape _ _ _ Ho) as (_ & _ & Hb). now apply Hb.
  - intros matchId message ->.
    destruct (invoke_trace env fuel (SendMessage matchId message) w)
      as [Hnone | (options & n & Ho & Hn)].
    + rewrite Hnone. constructor.
    + rewrite Hn. apply Forall_forall. intros invocation Hin.
      apply repeat_spec in Hin. subst invocation.
      simpl in Ho. inversion Ho. reflexivity.
Qed.

Lemma authenticated_request_body_witness :
  Forall (fun invocation => Options.body (snd invocation) = VUndefined)
         (outgoing session (snd (sessionRun (okResponse (VObject [])) aLike)))
  /\ Forall (fun invocation =>
               Options.body (snd invocation) = VObject [("message", VString "hello")])
            (outgoing session
               (snd (sessionRun (okResponse (VObject []))
                                (SendMessage (VString "m1") (VString "hello"))))).
Proof.
  split.
  - apply (proj1 (authenticated_request_body
                    (oneAnswer (okResponse (VObject []))) 2 aLike session)).
    reflexivity.
  - apply (proj2 (authenticated_request_body
                    (oneAnswer (okResponse (VObject []))) 2
                    (SendMessage (VString "m1") (VString "hello")) session)
                 (VString "m1") (VString "hello")).
    reflexivity.
Defined.


(** X2.  No authenticated call changes the instance: whatever the outcome,
    the stored credential and the merged options are afterwards what they
    were. *)
Theorem authenticated_call_keeps_instance (env : Env) (fuel : nat)
    (call : AuthenticatedCall) (w : World) :
  self (snd (invoke env fuel call w)) = self w.
Proof.
  destruct (invoke_cases env fuel call w) as [[e He] | (options & Ht & Hv & Ho)].
  - now rewrite He.
  - rewrite (invoke_through _ _ _ _ _ Ht Hv Ho), snd_chain. apply dispatch_self.
Qed.

(** X5.  What an authenticated call returns is always the body of a response
    that the dispatcher handed back for the call's own request, with a
    status below 300 and no application-level status other than 200. *)
Theorem authenticated_call_returns_interpreted_body (env : Env) (fuel : nat)
    (call : AuthenticatedCall) (w w' : World) (data : JsValue) :
  invoke env fuel call w = (Ok data, w') ->
  exists (options : Options.t) (response : Response),
    optionsOf (_authToken (self w)) call = Some options
    /\ dispatch env fuel (verbOf call) options w = (Ok response, w')
    /\ statusCode response < 300
    /\ body response = data
    /\ (truthy (field "status" data) = false \/ field "status" data = VNumber 200).
Proof.
  intros Hrun.
  destruct (invoke_cases env fuel call w) as [[e He] | (options & Ht & Hv & Ho)].
  - rewrite He in Hrun. discriminate.
  - rewrite (invoke_through _ _ _ _ _ Ht Hv Ho) in Hrun. unfold bind, lift in Hrun.
    destruct (dispatch env fuel (verbOf call) options w) as [[response | e |] w1] eqn:Hd;
      try discriminate.
    destruct (handleResponse response) as [d | e |] eqn:Hh; try discriminate.
    assert (d = data /\ w1 = w') as [-> ->].
    { destruct call; simpl in Hrun; try (inversion Hrun; now split).
      unfold checkLikesRemaining in Hrun.
      destruct (truthy d && negb (truthy (field "likes_remaining" d)));
        inversion Hrun; now split. }
    destruct (handleResponse_ok _ _ Hh) as (Hlt & Hb & Hs).
    exists options, response. repeat split; auto.
Qed.

Lemma authenticated_call_returns_interpreted_body_witness :
  exists (options : Options.t) (response : Response),
    optionsOf (_authToken (self session)) aLike = Some options
    /\ dispatch (oneAnswer (okResponse fiveLikesLeft)) 2 (verbOf aLike) options session
       = (Ok response, snd (sessionRun (okResponse fiveLikesLeft) aLike))
    /\ statusCode response < 300
    /\ body response = fiveLikesLeft
    /\ (truthy (field "status" fiveLikesLeft) = false
        \/ field "status" fiveLikesLeft = VNumber 200).
Proof.
  apply (authenticated_call_returns_interpreted_body
           (oneAnswer (okResponse fiveLikesLeft)) 2 aLike session).
  reflexivity.
Defined.


(** X7.  Once the checks of an authenticated call have passed, an error of
    the dispatcher and an error of the response interpreter reach the caller
    as they are; in particular a response with status 401 makes every
    authenticated method fail with [TinderNotAuthorizedError]. *)
Theorem authenticated_call_passes_errors_on (env : Env) (fuel : nat)
    (call : AuthenticatedCall) (w w' : World) (options : Options.t) :
  truthy (_authToken (self w)) = true ->
  argumentsValid call = true ->
  optionsOf (_authToken (self w)) call = Some options ->
  (forall e : JsError,
      dispatch env fuel (verbOf call) options w = (Throw e, w') ->
      invoke env fuel call w = (Throw e, w'))
  /\
  (forall (response : Response) (e : JsError),
      dispatch env fuel (verbOf call) options w = (Ok response, w') ->
      handleResponse response = Throw e ->
      invoke env fuel call w = (Throw e, w'))
  /\
  (forall response : Response,
      dispatch env fuel (verbOf call) options w = (Ok response, w') ->
      statusCode response = 401 ->
      invoke env fuel call w = (Throw TinderNotAuthorizedError, w')).
Proof.
  intros Ht Hv Ho. rewrite (invoke_through _ _ _ _ _ Ht Hv Ho).
  assert (forall (response : Response) (e : JsError),
             dispatch env fuel (verbOf call) options w = (Ok response, w') ->
             handleResponse response = Throw e ->
             (r <- dispatch env fuel (verbOf call) options ;;
              data <- lift (handleResponse r) ;; lift (finish call data)) w
             = (Throw e, w')) as Hinterpreted.
  { intros response e Hd Hh. unfold bind, lift. now rewrite Hd, Hh. }
  split; [| split].
  - intros e Hd. unfold bind. now rewrite Hd.
  - exact Hinterpreted.
  - intros response Hd H401. apply (Hinterpreted response); [exact Hd |].
    unfold handleResponse. now rewrite H401.
Qed.

Lemma authenticated_call_passes_errors_on_witness :
  sessionRun unauthorizedAnswer GetAccount
    = (Throw TinderNotAuthorizedError, snd (sessionRun unauthorizedAnswer GetAccount))
  /\ invoke brokenCircuit 2 GetAccount session
     = (Throw CircuitBrokenError, snd (invoke brokenCircuit 2 GetAccount session)).
Proof.
  split.
  - apply (proj2 (proj2 (authenticated_call_passes_errors_on
                           (oneAnswer unauthorizedAnswer) 2 GetAccount session
                           (snd (sessionRun unauthorizedAnswer GetAccount))
                           (accountOptions (VString "session"))
                           eq_refl eq_refl eq_refl))
                 unauthorizedAnswer);
      reflexivity.
  - apply (proj1 (authenticated_call_passes_errors_on
                    brokenCircuit 2 GetAccount session
                    (snd (invoke brokenCircuit 2 GetAccount session))
                    (accountOptions (VString "session"))
                    eq_refl eq_refl eq_refl)).
    reflexivity.
Defined.


(** X12.  Neither dispatcher ever hands back a response with a status of 500
    or more: such a response is only ever surfaced as an error. *)
Theorem dispatch_never_returns_server_error (env : Env) (fuel : nat) (verb : Verb)
    (params : Options.t) (w w' : World) (response : Response) :
  dispatch env fuel verb params w = (Ok response, w') ->
  statusCode response < 500.
Proof.
  intros Hd. pose proof (dispatch_result env verb params fuel w) as Hr.
  now rewrite Hd in Hr.
Qed.

Lemma dispatch_never_returns_server_error_witness :
  statusCode (okResponse (VObject [("results", VArray [])])) < 500.
Proof.
  apply (dispatch_never_returns_server_error
           quickFailures 3 GET (recommendationsOptions (VString "session"))
           (authorizedClient threeTries "session")
           (snd (dispatch quickFailures 3 GET (recommendationsOptions (VString "session"))
                          (authorizedClient threeTries "session")))).
  reflexivity.
Defined.


(** X6.  Once its checks have passed, a method other than [like] returns the
    body of the response unchanged whenever the dispatcher hands back a
    response with a status below 300 whose body has no application-level
    status other than 200. *)
Theorem authenticated_call_returns_body_unchanged (env : Env) (fuel : nat)
    (call : AuthenticatedCall) (w w' : World) (options : Options.t)
    (response : Response) :
  truthy (_authToken (self w)) = true ->
  argumentsValid call = true ->
  optionsOf (_authToken (self w)) call = Some options ->
  (forall userId photoId contentHash sNumber,
      call <> Like userId photoId contentHash sNumber) ->
  dispatch env fuel (verbOf call) options w = (Ok response, w') ->
  statusCode response < 300 ->
  truthy (field "status" (body response)) = false
    \/ field "status" (body response) = VNumber 200 ->
  invoke env fuel call w = (Ok (body response), w').
Proof.
  intros Ht Hv Ho Hcall Hd Hlt Hs.
  rewrite (invoke_through _ _ _ _ _ Ht Hv Ho). unfold bind, lift. rewrite Hd.
  assert (handleResponse response = Ok (body response)) as Hh.
  { unfold handleResponse.
    destruct (300 <=? statusCode response) eqn:E; [apply Z.leb_le in E; lia |].
    destruct Hs as [Hs | Hs]; rewrite Hs; simpl; now rewrite andb_false_r. }
  rewrite Hh. destruct call; try reflexivity. exfalso. eapply Hcall. reflexivity.
Qed.

Lemma authenticated_call_returns_body_unchanged_witness :
  sessionRun (okResponse (VObject [("_id", VString "u1"); ("name", VString "Ada")]))
             (GetUser (VString "u1"))
  = (Ok (VObject [("_id", VString "u1"); ("name", VString "Ada")]),
     snd (sessionRun (okResponse (VObject [("_id", VString "u1"); ("name", VString "Ada")]))
                     (GetUser (VString "u1")))).
Proof.
  apply (authenticated_call_returns_body_unchanged
           (oneAnswer (okResponse (VObject [("_id", VString "u1");
                                            ("name", VString "Ada")])))
           2 (GetUser (VString "u1")) session
           (snd (sessionRun (okResponse (VObject [("_id", VString "u1");
                                                  ("name", VString "Ada")]))
                            (GetUser (VString "u1"))))
           (userOptions (VString "session") (VString "u1"))
           (okResponse (VObject [("_id", VString "u1"); ("name", VString "Ada")])));
    try reflexivity.
  - discriminate.
  - left. reflexivity.
Defined.

(** X10.  [like] hands a falsy body back as a success: when the dispatcher
    returns a response with a status below 300 whose body is falsy (no body,
    null, an empty string), [like] returns that body and does not raise
    [TinderOutOfLikesError]. *)
Theorem like_falsy_body (env : Env) (fuel : nat)
    (userId photoId contentHash sNumber : JsValue) (w w' : World) (response : Response) :
  truthy userId = true ->
  truthy (_authToken (self w)) = true ->
  _getRequest env fuel
    (likeOptions (_authToken (self w)) userId photoId contentHash sNumber) w
    = (Ok response, w') ->
  statusCode response < 300 ->
  truthy (body response) = false ->
  like env fuel userId photoId contentHash sNumber w = (Ok (body response), w').
Proof.
  intros Hu Ht Hd Hlt Hb.
  assert (handleResponse response = Ok (body response)) as Hh.
  { unfold handleResponse.
    destruct (300 <=? statusCode response) eqn:E; [apply Z.leb_le in E; lia |].
    now rewrite Hb. }
  rewrite (like_interpreted _ _ _ _ _ _ _ _ _ _ Hu Ht Hd Hh).
  unfold checkLikesRemaining. now rewrite Hb.
Qed.

Lemma like_falsy_body_witness :
  sessionRun (mkResponse 204 "No Content" VUndefined) aLike
  = (Ok VUndefined, snd (sessionRun (mkResponse 204 "No Content" VUndefined) aLike)).
Proof.
  apply (like_falsy_body
           (oneAnswer (mkResponse 204 "No Content" VUndefined)) 2
           (VString "u1") (VString "p1") (VString "h") (VNumber 7) session
           (snd (sessionRun (mkResponse 204 "No Content" VUndefined) aLike))
           (mkResponse 204 "No Content" VUndefined));
    reflexivity.
Defined.


(** ** [authorize], continued *)

Lemma authorize_invalid (env : Env) (fuel : nat) (a b : JsValue) (w : World) :
  truthy a && truthy b = false ->
  authorize env fuel a b w = (Throw invalidArguments, w).
Proof.
  intros H. unfold authorize. run_chain.
  destruct (truthy a), (truthy b); try discriminate; reflexivity.
Qed.

(** What a run of [authorize] leaves behind: on success the world of the
    dispatcher with the body's token stored; otherwise the instance as it
    was. *)
Lemma authorize_outcome (env : Env) (fuel : nat) (a b : JsValue) (w : World) :
  match authorize env fuel a b w with
  | (Ok data, w1) =>
      exists (response : Response) (w' : World),
        truthy a = true /\ truthy b = true
        /\ _postRequest env fuel (authorizeOptions a b) w = (Ok response, w')
        /\ handleResponse response = Ok data
        /\ w1 = set_authToken (field "token" data) w'
  | (_, w1) => self w1 = self w
  end.
Proof.
  destruct (truthy a && truthy b) eqn:Hab.
  - apply andb_true_iff in Hab. destruct Hab as [Ha Hb].
    pose proof (dispatch_self env POST (authorizeOptions a b) fuel w) as Hself.
    cbn [dispatch] in Hself.
    unfold authorize. run_chain. rewrite Ha, Hb. simpl.
    destruct (_postRequest env fuel (authorizeOptions a b) w) as [[response | e |] w'];
      simpl in Hself; try exact Hself.
    destruct (handleResponse response) as [data | e |] eqn:Hh; try exact Hself.
    destruct data; simpl; try exact Hself;
      (exists response, w'; repeat split; assumption).
  - rewrite (authorize_invalid _ _ _ _ _ Hab). reflexivity.
Qed.

(** X15.  [authorize] never touches the merged options, and the credential
    after it is the [token] field of the returned body when it succeeds and
    the credential from before when it fails: a failed [authorize] does not
    log the client out. *)
Theorem authorize_credential_afterwards (env : Env) (fuel : nat) (a b : JsValue)
    (w : World) :
  _options (self (snd (authorize env fuel a b w))) = _options (self w)
  /\ _authToken (self (snd (authorize env fuel a b w)))
     = match fst (authorize env fuel a b w) with
       | Ok data => field "token" data
       | _ => _authToken (self w)
       end.
Proof.
  pose proof (authorize_outcome env fuel a b w) as H.
  destruct (authorize env fuel a b w) as [[data | e |] w1]; simpl.
  - destruct H as (response & w' & _ & _ & Hd & _ & ->).
    pose proof (dispatch_self env POST (authorizeOptions a b) fuel w) as Hself.
    cbn [dispatch] in Hself. rewrite Hd in Hself. simpl in Hself.
    split; [simpl; now rewrite Hself | reflexivity].
  - rewrite H. now split.
  - rewrite H. now split.
Qed.

(** X16.  After a successful [authorize], every request of a following
    authenticated call carries the [token] field of the body that
    [authorize] returned; and when that body has no truthy [token], a
    following call with valid arguments fails with
    [TinderNotAuthorizedError] before any transport invocation. *)
Theorem authorize_then_call (env : Env) (fuel : nat) (a b : JsValue) (w w1 : World)
    (data : JsValue) (env' : Env) (fuel' : nat) (call : AuthenticatedCall) :
  authorize env fuel a b w = (Ok data, w1) ->
  Forall (fun invocation =>
            Options.headers (snd invocation) = [("X-Auth-Token", field "token" data)])
         (outgoing w1 (snd (invoke env' fuel' call w1)))
  /\ (truthy (field "token" data) = false ->
      argumentsValid call = true ->
      invoke env' fuel' call w1 = (Throw TinderNotAuthorizedError, w1)).
Proof.
  intros Hrun. pose proof (authorize_outcome env fuel a b w) as H.
  rewrite Hrun in H. destruct H as (response & w' & _ & _ & _ & _ & ->).
  split.
  - destruct (invoke_trace env' fuel' call (set_authToken (field "token" data) w'))
      as [Hnone | (options & n & Ho & Hn)].
    + rewrite Hnone. constructor.
    + rewrite Hn. apply Forall_forall. intros invocation Hin.
      apply repeat_spec in Hin. subst invocation.
      destruct (options_shape _ _ _ Ho) as (Hh & _ & _). exact Hh.
  - intros Hfalsy Hv. now apply invoke_no_credential.
Qed.

Lemma authorize_then_call_witness :
  Forall (fun invocation =>
            Options.headers (snd invocation) = [("X-Auth-Token", VString "abc")])
         (outgoing (snd (authorizeRun tokenIssued))
                   (snd (invoke (oneAnswer (okResponse (VObject []))) 2 GetAccount
                                (snd (authorizeRun tokenIssued)))))
  /\ getAccountAfter tokenNotIssued
     = (Throw TinderNotAuthorizedError, snd (authorizeRun tokenNotIssued)).
Proof.
  split.
  - apply (proj1 (authorize_then_call
                    (authorizeEnv tokenIssued) 2 (VString "fb-token") (VString "fb-id")
                    (newClient VUndefined) (snd (authorizeRun tokenIssued)) tokenIssued
                    (oneAnswer (okResponse (VObject []))) 2 GetAccount eq_refl)).
  - apply (proj2 (authorize_then_call
                    (authorizeEnv tokenNotIssued) 2 (VString "fb-token") (VString "fb-id")
                    (newClient VUndefined) (snd (authorizeRun tokenNotIssued))
                    tokenNotIssued (scripted []) 2 GetAccount eq_refl));
      reflexivity.
Defined.


(** X17.  When the response to [authorize] has a status below 300 and no
    body ([undefined] or [null]), [authorize] fails with a TypeError, raised
    by reading [token] of the missing body, and the instance is left as it
    was. *)
Theorem authorize_empty_body (env : Env) (fuel : nat) (a b : JsValue) (w w' : World)
    (response : Response) :
  truthy a = true ->
  truthy b = true ->
  _postRequest env fuel (authorizeOptions a b) w = (Ok response, w') ->
  statusCode response < 300 ->
  body response = VUndefined \/ body response = VNull ->
  (exists message, authorize env fuel a b w = (Throw (TypeError message), w'))
  /\ self w' = self w.
Proof.
  intros Ha Hb Hd Hlt Hbody. split.
  - unfold authorize. run_chain. rewrite Ha, Hb. simpl. rewrite Hd.
    unfold handleResponse.
    destruct (300 <=? statusCode response) eqn:E; [apply Z.leb_le in E; lia |].
    destruct Hbody as [-> | ->]; simpl; eexists; reflexivity.
  - pose proof (dispatch_self env POST (authorizeOptions a b) fuel w) as Hself.
    cbn [dispatch] in Hself. now rewrite Hd in Hself.
Qed.

Lemma authorize_empty_body_witness :
  (exists message,
      authorize (oneAnswer (mkResponse 204 "No Content" VUndefined)) 2
                (VString "fb-token") (VString "fb-id") (newClient VUndefined)
      = (Throw (TypeError message),
         snd (_postRequest (oneAnswer (mkResponse 204 "No Content" VUndefined)) 2
                (authorizeOptions (VString "fb-token") (VString "fb-id"))
                (newClient VUndefined))))
  /\ self (snd (_postRequest (oneAnswer (mkResponse 204 "No Content" VUndefined)) 2
                  (authorizeOptions (VString "fb-token") (VString "fb-id"))
                  (newClient VUndefined)))
     = self (newClient VUndefined).
Proof.
  apply (authorize_empty_body
           (oneAnswer (mkResponse 204 "No Content" VUndefined)) 2
           (VString "fb-token") (VString "fb-id") (newClient VUndefined)
           (snd (_postRequest (oneAnswer (mkResponse 204 "No Content" VUndefined)) 2
                   (authorizeOptions (VString "fb-token") (VString "fb-id"))
                   (newClient VUndefined)))
           (mkResponse 204 "No Content" VUndefined)).
  - reflexivity.
  - reflexivity.
  - reflexivity.
  - simpl. lia.
  - left. reflexivity.
Defined.


(** X18.  With both arguments present, an error of the dispatcher and an
    error of the response interpreter make [authorize] fail with that same
    error; in particular a 401 response makes it fail with
    [TinderNotAuthorizedError]. *)
Theorem authorize_passes_errors_on (env : Env) (fuel : nat) (a b : JsValue)
    (w w' : World) :
  truthy a = true ->
  truthy b = true ->
  (forall e : JsError,
      _postRequest env fuel (authorizeOptions a b) w = (Throw e, w') ->
      authorize env fuel a b w = (Throw e, w'))
  /\
  (forall (response : Response) (e : JsError),
      _postRequest env fuel (authorizeOptions a b) w = (Ok response, w') ->
      handleResponse response = Throw e ->
      authorize env fuel a b w = (Throw e, w'))
  /\
  (forall response : Response,
      _postRequest env fuel (authorizeOptions a b) w = (Ok response, w') ->
      statusCode response = 401 ->
      authorize env fuel a b w = (Throw TinderNotAuthorizedError, w')).
Proof.
  intros Ha Hb.
  assert (forall (response : Response) (e : JsError),
             _postRequest env fuel (authorizeOptions a b) w = (Ok response, w') ->
             handleResponse response = Throw e ->
             authorize env fuel a b w = (Throw e, w')) as Hinterpreted.
  { intros response e Hd Hh. unfold authorize. run_chain. rewrite Ha, Hb. simpl.
    now rewrite Hd, Hh. }
  split; [| split].
  - intros e Hd. unfold authorize. run_chain. rewrite Ha, Hb. simpl. now rewrite Hd.
  - exact Hinterpreted.
  - intros response Hd H401. apply (Hinterpreted response); [exact Hd |].
    unfold handleResponse. now rewrite H401.
Qed.

Lemma authorize_passes_errors_on_witness :
  authorize (oneAnswer unauthorizedAnswer) 2 (VString "fb-token") (VString "fb-id")
            (newClient VUndefined)
  = (Throw TinderNotAuthorizedError,
     snd (_postRequest (oneAnswer unauthorizedAnswer) 2
            (authorizeOptions (VString "fb-token") (VString "fb-id"))
            (newClient VUndefined))).
Proof.
  apply (proj2 (proj2 (authorize_passes_errors_on
                         (oneAnswer unauthorizedAnswer) 2
                         (VString "fb-token") (VString "fb-id") (newClient VUndefined)
                         (snd (_postRequest (oneAnswer unauthorizedAnswer) 2
                                 (authorizeOptions (VString "fb-token") (VString "fb-id"))
                                 (newClient VUndefined)))
                         eq_refl eq_refl))
               unauthorizedAnswer);
    reflexivity.
Defined.


(** ** The response interpreter, continued *)

(** X13.  [handleResponse] returns a value exactly when the status is below
    300 and the body's [status] field is falsy or 200, and the value is then
    the body itself: it never returns anything for a status of 300 or more,
    nor a body other than the response's. *)
Theorem handleResponse_returns_exactly (response : Response) (data : JsValue) :
  handleResponse response = Ok data
  <-> statusCode response < 300
      /\ data = body response
      /\ (truthy (field "status" data) = false \/ field "status" data = VNumber 200).
Proof.
  split; [apply handleResponse_ok |].
  intros (Hlt & -> & Hs). unfold handleResponse.
  destruct (300 <=? statusCode response) eqn:E; [apply Z.leb_le in E; lia |].
  destruct Hs as [Hs | Hs]; rewrite Hs; simpl; [now rewrite andb_false_r |].
  now rewrite andb_false_r.
Qed.

Lemma handleResponse_returns_exactly_witness :
  statusCode (okResponse fiveLikesLeft) < 300
  /\ fiveLikesLeft = body (okResponse fiveLikesLeft)
  /\ (truthy (field "status" fiveLikesLeft) = false
      \/ field "status" fiveLikesLeft = VNumber 200).
Proof.
  apply (proj1 (handleResponse_returns_exactly (okResponse fiveLikesLeft) fiveLikesLeft)).
  reflexivity.
Defined.


(** X14.  A response with a status below 300 whose body is not a plain
    object (no body at all, null, a string such as an HTML page, a number,
    an array) is interpreted as a success and its body is returned as it
    is. *)
Theorem handleResponse_plain_body (response : Response) :
  statusCode response < 300 ->
  isObject (body response) = false ->
  handleResponse response = Ok (body response).
Proof.
  intros Hlt Hobj. unfold handleResponse.
  destruct (300 <=? statusCode response) eqn:E; [apply Z.leb_le in E; lia |].
  destruct (body response); simpl in *; try discriminate;
    rewrite ?andb_false_r; reflexivity.
Qed.

Lemma handleResponse_plain_body_witness :
  handleResponse (mkResponse 200 "OK" (VString "<html>maintenance</html>"))
  = Ok (VString "<html>maintenance</html>").
Proof.
  apply (handleResponse_plain_body
           (mkResponse 200 "OK" (VString "<html>maintenance</html>"))).
  - simpl. lia.
  - reflexivity.
Defined.


(** ** Where the two errors of the wrapper come from *)

Lemma attemptError_not_tinder (e : JsError) :
  attemptError e \/ (exists e', e = RetryTimedOut e' /\ attemptError e') ->
  e <> TinderNotAuthorizedError /\ e <> TinderOutOfLikesError.
Proof.
  intros [[-> | [-> | [[code ->] | (sc & sm & _ & ->)]]] | (e' & -> & _)];
    split; discriminate.
Qed.

(** X8.  An authenticated call fails with [TinderNotAuthorizedError] only
    in two ways: no credential is stored, and then nothing was sent and the
    world is as it was; or the dispatcher handed back a response with status
    401. *)
Theorem not_authorized_provenance (env : Env) (fuel : nat) (call : AuthenticatedCall)
    (w w' : World) :
  invoke env fuel call w = (Throw TinderNotAuthorizedError, w') ->
  (truthy (_authToken (self w)) = false /\ w' = w)
  \/ (exists (options : Options.t) (response : Response),
         optionsOf (_authToken (self w)) call = Some options
         /\ dispatch env fuel (verbOf call) options w = (Ok response, w')
         /\ statusCode response = 401).
Proof.
  intros Hrun.
  destruct (argumentsValid call) eqn:Hv.
  2:{ rewrite (invoke_invalid_arguments _ _ _ _ Hv) in Hrun. discriminate. }
  destruct (truthy (_authToken (self w))) eqn:Ht.
  2:{ rewrite (invoke_no_credential _ _ _ _ Hv Ht) in Hrun. left.
      inversion Hrun. now split. }
  destruct (optionsOf (_authToken (self w)) call) as [options |] eqn:Ho.
  2:{ rewrite (invoke_invalid_date _ _ _ _ Hv Ht Ho) in Hrun. discriminate. }
  right. rewrite (invoke_through _ _ _ _ _ Ht Hv Ho) in Hrun.
  unfold bind, lift in Hrun.
  pose proof (dispatch_result env (verbOf call) options fuel w) as Hres.
  destruct (dispatch env fuel (verbOf call) options w) as [[response | e |] w1] eqn:Hd;
    simpl in Hres.
  - destruct (handleResponse response) as [d | e |] eqn:Hh.
    + exfalso. destruct call; simpl in Hrun; try discriminate.
      unfold checkLikesRemaining in Hrun.
      destruct (truthy d && negb (truthy (field "likes_remaining" d))); discriminate.
    + inversion Hrun; subst e w1.
      destruct (handleResponse_throw _ _ Hh) as [[_ H401] | [message Hm]];
        [| discriminate].
      now exists options, response.
    + discriminate.
  - inversion Hrun; subst e w1.
    destruct (attemptError_not_tinder _ Hres) as [Hne _]. congruence.
  - discriminate.
Qed.

Lemma not_authorized_provenance_witness :
  (truthy (_authToken (self session)) = false
   /\ snd (sessionRun unauthorizedAnswer GetAccount) = session)
  \/ (exists (options : Options.t) (response : Response),
         optionsOf (_authToken (self session)) GetAccount = Some options
         /\ dispatch (oneAnswer unauthorizedAnswer) 2 (verbOf GetAccount) options session
            = (Ok response, snd (sessionRun unauthorizedAnswer GetAccount))
         /\ statusCode response = 401).
Proof.
  apply (not_authorized_provenance (oneAnswer unauthorizedAnswer) 2 GetAccount session).
  reflexivity.
Defined.


(** X9.  [TinderOutOfLikesError] comes from [like] alone, and only after the
    dispatcher has handed back a response with a status below 300 whose body
    is truthy and has no truthy [likes_remaining]: it never stands for an
    HTTP error, a dispatcher error or a failed check. *)
Theorem out_of_likes_provenance (env : Env) (fuel : nat) (call : AuthenticatedCall)
    (w w' : World) :
  invoke env fuel call w = (Throw TinderOutOfLikesError, w') ->
  (exists userId photoId contentHash sNumber,
      call = Like userId photoId contentHash sNumber)
  /\ exists (options : Options.t) (response : Response),
       optionsOf (_authToken (self w)) call = Some options
       /\ dispatch env fuel (verbOf call) options w = (Ok response, w')
       /\ statusCode response < 300
       /\ truthy (body response) = true
       /\ truthy (field "likes_remaining" (body response)) = false.
Proof.
  intros Hrun.
  destruct (argumentsValid call) eqn:Hv.
  2:{ rewrite (invoke_invalid_arguments _ _ _ _ Hv) in Hrun. discriminate. }
  destruct (truthy (_authToken (self w))) eqn:Ht.
  2:{ rewrite (invoke_no_credential _ _ _ _ Hv Ht) in Hrun. discriminate. }
  destruct (optionsOf (_authToken (self w)) call) as [options |] eqn:Ho.
  2:{ rewrite (invoke_invalid_date _ _ _ _ Hv Ht Ho) in Hrun. discriminate. }
  rewrite (invoke_through _ _ _ _ _ Ht Hv Ho) in Hrun.
  unfold bind, lift in Hrun.
  pose proof (dispatch_result env (verbOf call) options fuel w) as Hres.
  destruct (dispatch env fuel (verbOf call) options w) as [[response | e |] w1] eqn:Hd;
    simpl in Hres.
  - destruct (handleResponse response) as [d | e |] eqn:Hh.
    + destruct (handleResponse_ok _ _ Hh) as (Hlt & -> & _).
      destruct call; simpl in Hrun; try discriminate.
      unfold checkLikesRemaining in Hrun.
      destruct (truthy (body response)) eqn:Hb; simpl in Hrun; [| discriminate].
      destruct (truthy (field "likes_remaining" (body response))) eqn:Hl;
        simpl in Hrun; [discriminate |].
      inversion Hrun; subst w1.
      split; [now exists userId, photoId, contentHash, sNumber |].
      now exists options, response.
    + inversion Hrun; subst e.
      destruct (handleResponse_throw _ _ Hh) as [[H _] | [message Hm]]; discriminate.
    + discriminate.
  - inversion Hrun; subst e.
    destruct (attemptError_not_tinder _ Hres) as [_ Hne]. congruence.
  - discriminate.
Qed.

Lemma out_of_likes_provenance_witness :
  (exists userId photoId contentHash sNumber,
      aLike = Like userId photoId contentHash sNumber)
  /\ exists (options : Options.t) (response : Response),
       optionsOf (_authToken (self session)) aLike = Some options
       /\ dispatch (oneAnswer (okResponse noLikesLeft)) 2 (verbOf aLike) options session
          = (Ok response, snd (sessionRun (okResponse noLikesLeft) aLike))
       /\ statusCode response < 300
       /\ truthy (body response) = true
       /\ truthy (field "likes_remaining" (body response)) = false.
Proof.
  apply (out_of_likes_provenance (oneAnswer (okResponse noLikesLeft)) 2 aLike session).
  reflexivity.
Defined.


(** ** Arguments and the accessors *)

(** X1.  An authenticated call whose arguments fail the method's check
    fails with the invalid-arguments error, sends nothing and leaves the
    world as it was, whether or not a credential is stored. *)
Theorem invalid_arguments_whatever_the_credential (env : Env) (fuel : nat)
    (call : AuthenticatedCall) (w : World) :
  argumentsValid call = false ->
  invoke env fuel call w = (Throw invalidArguments, w)
  /\ outgoing w (snd (invoke env fuel call w)) = [].
Proof.
  intros Hv. rewrite (invoke_invalid_arguments _ _ _ _ Hv).
  split; [reflexivity | apply outgoing_none].
Qed.

Lemma invalid_arguments_whatever_the_credential_witness :
  sessionRun (okResponse (VObject [])) (SendMessage (VString "m1") (VString ""))
    = (Throw invalidArguments, session)
  /\ outgoing session
       (snd (sessionRun (okResponse (VObject []))
                        (SendMessage (VString "m1") (VString ""))))
     = [].
Proof.
  apply (invalid_arguments_whatever_the_credential
           (oneAnswer (okResponse (VObject []))) 2
           (SendMessage (VString "m1") (VString "")) session).
  reflexivity.
Defined.


(** X11.  With a credential stored, [getUpdates] called with an invalid date
    (time value NaN) passes the argument check and then fails with the
    RangeError of [toISOString], before anything is sent. *)
Theorem getUpdates_invalid_date_fails (env : Env) (fuel : nat) (w : World) :
  truthy (_authToken (self w)) = true ->
  getUpdates env fuel (VDate None) w
  = (Throw (RangeError [Lit "Invalid time value"]), w).
Proof.
  intros Ht. apply (invoke_invalid_date env fuel (GetUpdates (VDate None)) w);
    [reflexivity | exact Ht | reflexivity].
Qed.

Lemma getUpdates_invalid_date_fails_witness :
  getUpdates (oneAnswer (okResponse (VObject []))) 2 (VDate None) session
  = (Throw (RangeError [Lit "Invalid time value"]), session).
Proof.
  apply (getUpdates_invalid_date_fails (oneAnswer (okResponse (VObject []))) 2 session).
  reflexivity.
Defined.


(** X19.  The accessors: reading after writing gives the value written;
    after the setter has stored a value every request of an authenticated
    call carries it; and after it has stored a falsy value (a logout) a call
    with valid arguments fails with [TinderNotAuthorizedError] before any
    transport invocation. *)
Theorem setter_then_call (env : Env) (fuel : nat) (call : AuthenticatedCall)
    (authToken : JsValue) (w : World) :
  get_authToken (set_authToken authToken w) = authToken
  /\ Forall (fun invocation =>
               Options.headers (snd invocation) = [("X-Auth-Token", authToken)])
            (outgoing (set_authToken authToken w)
                      (snd (invoke env fuel call (set_authToken authToken w))))
  /\ (truthy authToken = false ->
      argumentsValid call = true ->
      invoke env fuel call (set_authToken authToken w)
      = (Throw TinderNotAuthorizedError, set_authToken authToken w)).
Proof.
  split; [reflexivity | split].
  - destruct (invoke_trace env fuel call (set_authToken authToken w))
      as [Hnone | (options & n & Ho & Hn)].
    + rewrite Hnone. constructor.
    + rewrite Hn. apply Forall_forall. intros invocation Hin.
      apply repeat_spec in Hin. subst invocation.
      destruct (options_shape _ _ _ Ho) as (Hh & _ & _). exact Hh.
  - intros Hfalsy Hv. now apply invoke_no_credential.
Qed.

Lemma setter_then_call_witness :
  invoke (oneAnswer (okResponse (VObject []))) 2 GetRecommendations
         (set_authToken VNull session)
  = (Throw TinderNotAuthorizedError, set_authToken VNull session).
Proof.
  apply (proj2 (proj2 (setter_then_call
                         (oneAnswer (okResponse (VObject []))) 2 GetRecommendations
                         VNull session)));
    reflexivity.
Defined.

(** ** The circuit breaker *)

Section BreakerFacts.

Variables (window : Z) (net : nat -> Verb -> Options.t -> Outcome).

(** One execution: the clock never runs backwards, the instance is not
    touched, and the transport is invoked exactly when the gate is not
    shut. *)
Lemma exec_gate (shut : bool) (verb : Verb) (params : Options.t) (w : World) :
  let after := exec (mkEnv net (fun _ _ => shut)) verb params w in
  self (snd after) = self w
  /\ clock w <= clock (snd after)
  /\ (shut = true ->
      after = (Throw CircuitBrokenError, countExec w))
  /\ (shut = false ->
      sent (snd after) = (sent w ++ [(verb, params)])%list).
Proof.
  unfold exec. cbn [circuitOpen network]. destruct shut.
  - cbn [snd self clock countExec]. repeat split; try lia; discriminate.
  - destruct (breakerTimeout (field "breaker" (_options (self w)))) as [bound |];
      [destruct (Z.max 0 bound <? _) |];
      try destruct (reply _) as [response | code];
      cbn [snd self clock sent advance logSent countExec];
      repeat split; try lia; try discriminate.
Qed.

Lemma execGuarded_facts (verb : Verb) (params : Options.t) (g : Guarded) :
  let after := execGuarded window net verb params g in
  policyOf window (snd after) = policyOf window g
  /\ clock (world g) <= clock (world (snd after))
  /\ (forall v, sameVerb v verb = false -> circuit (snd after) v = circuit g v).
Proof.
  unfold execGuarded.
  pose proof (exec_gate (rejects (policyOf window g) (circuit g verb) (clock (world g)))
                verb params (world g)) as (Hself & Hclock & _ & _).
  destruct (exec _ verb params (world g)) as [r w'].
  cbn [snd] in *. unfold policyOf. cbn [world circuit]. rewrite Hself.
  repeat split; [exact Hclock |].
  intros v Hv. destruct (rejects _ _ _); [reflexivity |].
  unfold setCircuit. now rewrite Hv.
Qed.

Lemma execGuarded_open (verb : Verb) (params : Options.t) (g : Guarded) (since : Z) :
  circuit g verb = Tripped since ->
  clock (world g) < since + circuitDuration (policyOf window g) ->
  execGuarded window net verb params g
  = (Throw CircuitBrokenError, mkGuarded (countExec (world g)) (circuit g)).
Proof.
  intros Hc Hnow. unfold execGuarded.
  assert (rejects (policyOf window g) (circuit g verb) (clock (world g)) = true) as Hshut.
  { unfold rejects, phaseAt. rewrite Hc.
    apply Z.ltb_lt in Hnow. now rewrite Hnow. }
  rewrite Hshut.
  pose proof (exec_gate true verb params (world g)) as (_ & _ & Hr & _).
  cbn zeta in Hr. now rewrite (Hr eq_refl).
Qed.

Lemma sameVerb_refl (v : Verb) : sameVerb v v = true.
Proof. now destruct v. Qed.

Lemma sameVerb_eq (a b : Verb) : sameVerb a b = true -> a = b.
Proof. destruct a, b; simpl; congruence. Qed.

(** While a circuit is open, its calls are turned away whatever else the
    client does in between. *)
Lemma run_open (verb : Verb) (policy : BreakerPolicy) (since : Z) (steps : list Step) :
  forall g : Guarded,
    policyOf window g = policy ->
    (clock (world g) < since + circuitDuration policy -> circuit g verb = Tripped since) ->
    Forall (fun o =>
              verbCalled o = verb ->
              calledAt o < since + circuitDuration policy ->
              result o = Throw CircuitBrokenError /\ attempts o = [])
           (fst (run window net steps g)).
Proof.
  induction steps as [| [v params | ms] steps IH]; intros g Hp Hinv;
    cbn [run]; [constructor | |].
  - pose proof (execGuarded_facts v params g) as (Hp' & Hclock & Hother).
    cbn zeta in Hp', Hclock, Hother.
    destruct (execGuarded window net v params g) as [r g'] eqn:Hexec.
    cbn [snd] in Hp', Hclock, Hother.
    specialize (IH g').
    destruct (run window net steps g') as [observations g''].
    cbn [fst] in *. constructor.
    + cbn [verbCalled calledAt result attempts]. intros -> Hnow.
      rewrite <- Hp in Hnow.
      rewrite (execGuarded_open _ params g since (Hinv ltac:(now rewrite <- Hp)) Hnow)
        in Hexec.
      inversion Hexec; subst r g'. cbn [world sent countExec].
      split; [reflexivity | apply skipn_all].
    + apply IH; [now rewrite Hp', Hp |].
      intros Hnow. assert (clock (world g) < since + circuitDuration policy) as Hbefore
        by lia.
      destruct (sameVerb verb v) eqn:Hv.
      * apply sameVerb_eq in Hv. subst v.
        rewrite <- Hp in Hbefore.
        rewrite (execGuarded_open _ params g since
                   (Hinv ltac:(now rewrite <- Hp)) Hbefore) in Hexec.
        inversion Hexec; subst r g'. cbn [circuit].
        apply Hinv. now rewrite <- Hp.
      * rewrite (Hother verb Hv). now apply Hinv.
  - apply IH; [exact Hp |].
    cbn [waitGuarded world circuit advance clock]. intros Hnow. apply Hinv. lia.
Qed.

End BreakerFacts.

(** C9.  For the circuit of each verb: a call that goes through a closed
    circuit and whose outcome brings the failure rate within the
    measurement window to the threshold opens the circuit; from then on,
    whatever else the client does, every call on that verb made before
    [circuitDuration] milliseconds have elapsed fails at once with
    [CircuitBrokenError] and without a transport attempt; a call made after
    that goes through to the transport as a probe, and its success closes
    the circuit while its failure opens it again. *)
Theorem circuit_opens_rejects_and_probes (window : Z)
    (net : nat -> Verb -> Options.t -> Outcome) (verb : Verb) (params : Options.t)
    (g : Guarded) :
  let policy := policyOf window g in
  let after := execGuarded window net verb params g in
  (forall history : list (Z * bool),
      circuit g verb = Flowing history ->
      crossed policy ((clock (world (snd after)), succeeded (fst after))
                        :: inWindow policy (clock (world (snd after))) history) = true ->
      sent (world (snd after)) = (sent (world g) ++ [(verb, params)])%list
      /\ circuit (snd after) verb = Tripped (clock (world (snd after))))
  /\
  (forall (since : Z) (steps : list Step),
      circuit g verb = Tripped since ->
      Forall (fun o =>
                verbCalled o = verb ->
                calledAt o < since + circuitDuration policy ->
                result o = Throw CircuitBrokenError /\ attempts o = [])
             (fst (run window net steps g)))
  /\
  (forall since : Z,
      circuit g verb = Tripped since ->
      since + circuitDuration policy <= clock (world g) ->
      sent (world (snd after)) = (sent (world g) ++ [(verb, params)])%list
      /\ (succeeded (fst after) = true ->
          phaseAt policy (circuit (snd after) verb) (clock (world (snd after))) = Closed)
      /\ (succeeded (fst after) = false ->
          circuit (snd after) verb = Tripped (clock (world (snd after))))).
Proof.
  intros policy after.
  assert (forall c : Circuit,
             circuit g verb = c ->
             rejects policy c (clock (world g)) = false ->
             sent (world (snd after)) = (sent (world g) ++ [(verb, params)])%list
             /\ circuit (snd after) verb
                = settle policy c (clock (world (snd after))) (succeeded (fst after)))
    as Hthrough.
  { intros c Hc Hpass. subst after. unfold execGuarded. fold policy.
    rewrite Hc, Hpass.
    pose proof (exec_gate net false verb params (world g)) as (_ & _ & _ & Hsent).
    cbn zeta in Hsent. specialize (Hsent eq_refl).
    destruct (exec _ verb params (world g)) as [r w']. cbn [fst snd world circuit] in *.
    split; [exact Hsent |]. unfold setCircuit. now rewrite sameVerb_refl. }
  split; [| split].
  - intros history Hc Hcrossed.
    destruct (Hthrough (Flowing history) Hc eq_refl) as [Hsent Hcircuit].
    split; [exact Hsent |]. rewrite Hcircuit. cbn [settle]. now rewrite Hcrossed.
  - intros since steps Hc. apply run_open; [reflexivity | intros _; exact Hc].
  - intros since Hc Hlate.
    assert (rejects policy (Tripped since) (clock (world g)) = false) as Hpass.
    { unfold rejects, phaseAt.
      destruct (clock (world g) <? since + circuitDuration policy) eqn:E;
        [apply Z.ltb_lt in E; lia | reflexivity]. }
    destruct (Hthrough (Tripped since) Hc Hpass) as [Hsent Hcircuit].
    split; [exact Hsent |]. rewrite Hcircuit. cbn [settle].
    split; intros Hok; rewrite Hok; reflexivity.
Qed.

Lemma circuit_opens_rejects_and_probes_witness :
  (sent (world tripped) = [(GET, recs)] /\ circuit tripped GET = Tripped 20)
  /\ Forall (fun o =>
               verbCalled o = GET ->
               calledAt o < 20 + 10800000 ->
               result o = Throw CircuitBrokenError /\ attempts o = [])
            (fst (run 10000 refusesOnce
                      [Call GET recs; Call POST recs; Wait 5000; Call GET recs] tripped))
  /\ phaseAt (policyOf 10000 afterOutage)
             (circuit (snd (execGuarded 10000 refusesOnce GET recs afterOutage)) GET)
             (clock (world (snd (execGuarded 10000 refusesOnce GET recs afterOutage))))
     = Closed.
Proof.
  split; [| split].
  - apply (proj1 (circuit_opens_rejects_and_probes
                    10000 refusesOnce GET recs freshlyGuarded) []);
      reflexivity.
  - apply (proj1 (proj2 (circuit_opens_rejects_and_probes
                           10000 refusesOnce GET recs tripped)) 20).
    reflexivity.
  - apply (proj2 (proj2 (circuit_opens_rejects_and_probes
                           10000 refusesOnce GET recs afterOutage)) 20).
    + reflexivity.
    + simpl. lia.
    + reflexivity.
Defined.

(** What the client of the scenario sees through the outage: the refused
    call, two calls turned away on GET while POST still goes through, and
    the probe three hours later. *)
Example outage_observed :
  map (fun o => (verbCalled o, calledAt o, succeeded (result o), List.length (attempts o)))
      (fst (run 10000 refusesOnce outage freshlyGuarded))
  = [(GET, 0, false, 1%nat); (GET, 20, false, 0%nat); (POST, 20, true, 1%nat);
     (GET, 5040, false, 0%nat); (GET, 10805040, true, 1%nat);
     (GET, 10805060, true, 1%nat)].
Proof. reflexivity. Qed.
